(** * Patent semantic search: normalisation, indexing, retrieval, synthesis

    A shallow embedding of the four Python modules of the repository

      - services/data_preprocessor.py      ([DataProcessor])
      - services/search_service.py         ([SearchService])
      - services/summarization_service.py  ([SummarizationService])
      - app.py                             ([App])

    Python values are modelled as follows.  A [str] is a [string]; its
    characters stand for code points.  A Python exception is a value of
    [exn]; a call that may raise returns a [result].  Third-party
    libraries (BeautifulSoup, sentence-transformers, chromadb, groq) are
    not part of the repository: what they compute is either a section
    variable or, for the chromadb collection, a small model written from
    the library's documented behaviour. *)

From Stdlib Require Import Bool Arith ZArith Lia List.
From Stdlib Require Import Ascii String DecimalString.
Import ListNotations.

Local Open Scope list_scope.
Local Open Scope string_scope.

(** ** Exceptions and fallible calls *)

(** A raised Python exception: the class name and [str(e)], or a web
    framework [HTTPException] with its status code and detail. *)
Inductive exn : Type :=
| PyExc (cls : string) (msg : string)
| HTTPException (status_code : Z) (detail : string).

Inductive result (A : Type) : Type :=
| Ok (a : A)
| Raise (e : exn).

Arguments Ok {A} a.
Arguments Raise {A} e.

Definition bind {A B : Type} (r : result A) (k : A -> result B) : result B :=
  match r with
  | Ok a => k a
  | Raise e => Raise e
  end.

Notation "x <- r ;; k" := (bind r (fun x => k))
  (at level 61, r at next level, right associativity).

(** [try: body  except Exception as e: handler(e)] *)
Definition try_except {A : Type} (body : result A) (handler : exn -> result A)
  : result A :=
  match body with
  | Ok a => Ok a
  | Raise e => handler e
  end.

(** A call raises. *)
Definition raises {A : Type} (r : result A) : Prop := exists e, r = Raise e.

(** ** Python [str] operations used by the services *)

Module PyStr.

(** [str.isspace] on the code points below 256: tab, line feed, vertical
    tab, form feed, carriage return, the four separators 28..31, space,
    next-line (133) and the no-break space (160).  The regular
    expression class [\s] on [str] patterns is the same set. *)
Definition isspace (c : ascii) : bool :=
  let n := nat_of_ascii c in
  (((9 <=? n) && (n <=? 13)) || ((28 <=? n) && (n <=? 32))
   || (n =? 133) || (n =? 160))%nat.

Definition is_empty (s : string) : bool :=
  match s with EmptyString => true | String _ _ => false end.

(** [s.lstrip()] *)
Fixpoint lstrip (s : string) : string :=
  match s with
  | EmptyString => EmptyString
  | String c r => if isspace c then lstrip r else s
  end.

(** [s.rstrip()] *)
Fixpoint rstrip (s : string) : string :=
  match s with
  | EmptyString => EmptyString
  | String c r =>
      let r' := rstrip r in
      if isspace c && is_empty r' then EmptyString else String c r'
  end.

(** [s.strip()] *)
Definition strip (s : string) : string := lstrip (rstrip s).

(** [re.sub(r'\s+', ' ', s)]: every maximal run of whitespace becomes
    one space.  [in_run] tells that the previous character was part of
    the run being replaced. *)
Fixpoint sub_ws (in_run : bool) (s : string) : string :=
  match s with
  | EmptyString => EmptyString
  | String c r =>
      if isspace c
      then if in_run then sub_ws true r else String " " (sub_ws true r)
      else String c (sub_ws false r)
  end.

Definition re_sub_ws (s : string) : string := sub_ws false s.

(** [s[:n]] *)
Fixpoint take (n : nat) (s : string) : string :=
  match n, s with
  | S k, String c r => String c (take k r)
  | _, _ => EmptyString
  end.

(** [s[n:]] *)
Fixpoint drop (n : nat) (s : string) : string :=
  match n, s with
  | S k, String _ r => drop k r
  | _, _ => s
  end.

(** [sep.join(l)] *)
Fixpoint join (sep : string) (l : list string) : string :=
  match l with
  | [] => EmptyString
  | [x] => x
  | x :: rest => x ++ sep ++ join sep rest
  end.

Fixpoint starts_with (p s : string) : bool :=
  match p, s with
  | EmptyString, _ => true
  | String a p', String b s' => Ascii.eqb a b && starts_with p' s'
  | String _ _, EmptyString => false
  end.

(** [s.endswith(p)] *)
Fixpoint endswith (s p : string) : bool :=
  String.eqb s p ||
  match s with
  | EmptyString => false
  | String _ r => endswith r p
  end.

(** [s.split(sep)] for a non-empty [sep]: the separators are found from
    the left and do not overlap.  The result is never empty; it is
    returned as the first unit and the list of the following ones.
    [skip] counts the characters of a separator that was recognised and
    is still to be consumed. *)
Fixpoint split_from (sep : string) (skip : nat) (s : string)
  : string * list string :=
  match s with
  | EmptyString => (EmptyString, [])
  | String c r =>
      match skip with
      | S k => split_from sep k r
      | O =>
          if starts_with sep s
          then let '(u, us) := split_from sep (String.length sep - 1) r in
               (EmptyString, u :: us)
          else let '(u, us) := split_from sep 0 r in
               (String c u, us)
      end
  end.

Definition split (sep s : string) : list string :=
  let '(u, us) := split_from sep 0 s in u :: us.

(** Predicates on the shape of a string, as boolean functions. *)

Definition starts_ws (s : string) : bool :=
  match s with
  | EmptyString => false
  | String c _ => isspace c
  end.

Fixpoint ends_ws (s : string) : bool :=
  match s with
  | EmptyString => false
  | String c EmptyString => isspace c
  | String _ r => ends_ws r
  end.

(** Two adjacent whitespace characters somewhere in [s]. *)
Fixpoint has_ws_pair (s : string) : bool :=
  match s with
  | EmptyString => false
  | String c r => (isspace c && starts_ws r) || has_ws_pair r
  end.

(** Every whitespace character of [s] is the space character. *)
Fixpoint ws_are_spaces (s : string) : bool :=
  match s with
  | EmptyString => true
  | String c r => (negb (isspace c) || Ascii.eqb c " ") && ws_are_spaces r
  end.

(** The characters of [s] that are not whitespace, in order. *)
Fixpoint visible (s : string) : string :=
  match s with
  | EmptyString => EmptyString
  | String c r => if isspace c then visible r else String c (visible r)
  end.

Definition all_ws (s : string) : bool := is_empty (visible s).

End PyStr.


(** ** [dict.get(key, default)] on an optional field *)

Definition dict_get {A : Type} (field : option A) (default : A) : A :=
  match field with
  | Some v => v
  | None => default
  end.

(** The body of a [for] loop whose iterations may raise: the results are
    collected in order and the first exception ends the loop. *)
Fixpoint for_each {A B : Type} (f : A -> result B) (l : list A)
  : result (list B) :=
  match l with
  | [] => Ok []
  | x :: rest => y <- f x ;; ys <- for_each f rest ;; Ok (y :: ys)
  end.

(** ** services/data_preprocessor.py *)

Module DataProcessor.

(** The patent JSON objects the processor reads.  A field is [None] when
    the key is absent from the object. *)
Record Title : Type := { text : option string }.

Record Markup : Type := { paragraph_markup : option string }.

Record ClaimGroup : Type := { group_claims : option (list Markup) }.

Record PatentJson : Type := {
  raw_patent_number : option string;
  raw_titles : option (list Title);
  raw_abstracts : option (list Markup);
  raw_claims : option (list ClaimGroup);
  raw_descriptions : option (list Markup)
}.

Section WithLibraries.

(** Components of an embedding vector (Python floats). *)
Variable float : Type.

(** [BeautifulSoup(content, 'html.parser').get_text()]: the visible text
    of the markup, or the exception the parser raises. *)
Variable soup_get_text : string -> result string.

(** [self.model.encode(text).tolist()] *)
Variable encode : string -> list float.

(** [self.data_path] *)
Variable data_path : string.

(** The dictionary built by [extract_patent_data]; the key ['embedding']
    is added later by [load_and_process_documents]. *)
Record ProcessedDoc : Type := {
  patent_number : string;
  title : string;
  abstract : string;
  claims : string;
  description : string;
  searchable_text : string;
  embedding : option (list float)
}.

Definition set_embedding (d : ProcessedDoc) (e : list float) : ProcessedDoc :=
  {| patent_number := patent_number d;
     title := title d;
     abstract := abstract d;
     claims := claims d;
     description := description d;
     searchable_text := searchable_text d;
     embedding := Some e |}.

(** [clean_html_content(content)]; [None] is Python's [None]. *)
Definition clean_html_content (content : option string) : result string :=
  match content with
  | None => Ok ""
  | Some EmptyString => Ok ""
  | Some markup =>
      clean_text <- soup_get_text markup ;;
      Ok (PyStr.strip (PyStr.re_sub_ws clean_text))
  end.

(** [text[:2000] + "..." if len(text) > 2000 else text] *)
Definition limit_description (description_text : string) : string :=
  if (2000 <? String.length description_text)%nat
  then PyStr.take 2000 description_text ++ "..."
  else description_text.

(** The [try] block of [extract_patent_data]. *)
Definition extract_body (patent_json : PatentJson) : result ProcessedDoc :=
  let patent_number := dict_get (raw_patent_number patent_json) "" in
  let titles := dict_get (raw_titles patent_json) [] in
  let title := match titles with
               | t :: _ => dict_get (text t) ""
               | [] => ""
               end in
  let abstracts := dict_get (raw_abstracts patent_json) [] in
  abstract_text <-
    match abstracts with
    | a :: _ => clean_html_content (Some (dict_get (paragraph_markup a) ""))
    | [] => Ok ""
    end ;;
  let claims := dict_get (raw_claims patent_json) [] in
  claims_text <-
    match claims with
    | g :: _ =>
        let claims_list := dict_get (group_claims g) [] in
        claims_texts <-
          for_each
            (fun claim =>
               clean_html_content (Some (dict_get (paragraph_markup claim) "")))
            (firstn 5 claims_list) ;;
        Ok (PyStr.join " " claims_texts)
    | [] => Ok ""
    end ;;
  let descriptions := dict_get (raw_descriptions patent_json) [] in
  description_text <-
    match descriptions with
    | d :: _ =>
        cleaned <- clean_html_content
                     (Some (dict_get (paragraph_markup d) "")) ;;
        Ok (limit_description cleaned)
    | [] => Ok ""
    end ;;
  let searchable_text := PyStr.strip (abstract_text ++ " " ++ claims_text) in
  Ok {| patent_number := patent_number;
        title := title;
        abstract := abstract_text;
        claims := claims_text;
        description := description_text;
        searchable_text := searchable_text;
        embedding := None |}.

(** [extract_patent_data]: any exception is printed and [None] returned. *)
Definition extract_patent_data (patent_json : PatentJson)
  : option ProcessedDoc :=
  match extract_body patent_json with
  | Ok doc => Some doc
  | Raise _ => None
  end.

(** One iteration of the loop of [load_and_process_documents] on a file
    whose [open] and [json.load] gave [loaded]: the document to append,
    if any.  An exception skips the file. *)
Definition process_file (loaded : result PatentJson) : option ProcessedDoc :=
  match loaded with
  | Raise _ => None
  | Ok patent_data =>
      match extract_patent_data patent_data with
      | Some processed_doc =>
          if negb (PyStr.is_empty (searchable_text processed_doc))
          then Some (set_embedding processed_doc
                       (encode (searchable_text processed_doc)))
          else None
      | None => None
      end
  end.

(** The documents one directory entry adds to the list. *)
Definition contribution (file : string * result PatentJson)
  : list ProcessedDoc :=
  match process_file (snd file) with
  | Some doc => [doc]
  | None => []
  end.

Fixpoint process_files (files : list (string * result PatentJson))
                       (documents : list ProcessedDoc) : list ProcessedDoc :=
  match files with
  | [] => documents
  | (_, loaded) :: rest =>
      process_files rest
        match process_file loaded with
        | Some doc => documents ++ [doc]
        | None => documents
        end
  end.

(** [load_and_process_documents]: [data_dir] is [None] when the data path
    does not exist, and otherwise lists the directory: each file name
    with the outcome of opening and parsing it. *)
Definition load_and_process_documents
    (data_dir : option (list (string * result PatentJson)))
  : result (list ProcessedDoc) :=
  match data_dir with
  | None => Raise (PyExc "FileNotFoundError" ("Data path not found: " ++ data_path))
  | Some listing =>
      let json_files :=
        filter (fun f => PyStr.endswith (fst f) ".json") listing in
      Ok (process_files json_files [])
  end.

End WithLibraries.

Arguments patent_number {float} _.
Arguments title {float} _.
Arguments abstract {float} _.
Arguments claims {float} _.
Arguments description {float} _.
Arguments searchable_text {float} _.
Arguments embedding {float} _.
Arguments set_embedding {float} _ _.

(** [m.get('paragraph_markup', '')] *)
Definition markup_text (m : Markup) : string :=
  dict_get (paragraph_markup m) "".

(** The markups [extract_patent_data] passes to [clean_html_content]: that
    of the first abstract, those of the first five claims of the first
    claims group, and that of the first description. *)
Definition markups_read (patent_json : PatentJson) : list string :=
  (map markup_text (firstn 1 (dict_get (raw_abstracts patent_json) []))
   ++ match dict_get (raw_claims patent_json) [] with
      | g :: _ => map markup_text (firstn 5 (dict_get (group_claims g) []))
      | [] => []
      end
   ++ map markup_text (firstn 1 (dict_get (raw_descriptions patent_json) [])))%list.

(** The patent object with another value under the key ['claims']. *)
Definition with_claims (patent_json : PatentJson)
    (groups : option (list ClaimGroup)) : PatentJson :=
  {| raw_patent_number := raw_patent_number patent_json;
     raw_titles := raw_titles patent_json;
     raw_abstracts := raw_abstracts patent_json;
     raw_claims := groups;
     raw_descriptions := raw_descriptions patent_json |}.

End DataProcessor.

(** ** The vector store

    [chromadb] is a third-party library; the services use a persistent
    client and one collection.  This module is a model of that collection
    written from the library's documented behaviour and from the
    contract the specification gives for the Vector Index: [add] inserts
    records under new ids and never changes a record that is already
    stored, [count] is the number of records, [query] returns the
    [n_results] nearest records in ascending distance. *)

Module Chroma.

(** The metadata dictionary [index_documents] stores with each record. *)
Record Metadata : Type := {
  md_patent_number : string;
  md_title : string;
  md_abstract : string;
  md_claims : string;
  md_description : string
}.

(** What [add] does with an id that is already stored: current releases
    skip the record without an error, older ones raise. *)
Inductive OnExisting : Type := IgnoreExisting | RejectExisting.

Section WithFloat.

Variable float : Type.

Record Entry : Type := {
  entry_id : string;
  entry_embedding : list float;
  entry_metadata : Metadata;
  entry_document : string
}.

(** A collection: its records in insertion order. *)
Definition Collection : Type := list Entry.

Definition stored_ids (c : Collection) : list string := map entry_id c.

Definition has_id (c : Collection) (id : string) : bool :=
  existsb (String.eqb id) (stored_ids c).

(** [collection.get(ids=[id])]: the records stored under [id]. *)
Definition get (c : Collection) (id : string) : list Entry :=
  filter (fun e => String.eqb id (entry_id e)) c.

Definition count (c : Collection) : nat := List.length c.

Fixpoint unique_ids (ids : list string) : bool :=
  match ids with
  | [] => true
  | i :: rest => negb (existsb (String.eqb i) rest) && unique_ids rest
  end.

(** The records of one [add] call, from its four parallel lists; [None]
    when the lists differ in length. *)
Fixpoint records (ids : list string) (embeddings : list (list float))
    (metadatas : list Metadata) (documents : list string)
  : option (list Entry) :=
  match ids, embeddings, metadatas, documents with
  | [], [], [], [] => Some []
  | i :: ids', v :: embeddings', m :: metadatas', d :: documents' =>
      match records ids' embeddings' metadatas' documents' with
      | Some rest =>
          Some ({| entry_id := i; entry_embedding := v;
                   entry_metadata := m; entry_document := d |} :: rest)
      | None => None
      end
  | _, _, _, _ => None
  end.

Variable on_existing : OnExisting.

(** [collection.add(ids, embeddings, metadatas, documents)]: the
    arguments are validated before anything is written. *)
Definition add (c : Collection) (ids : list string)
    (embeddings : list (list float)) (metadatas : list Metadata)
    (documents : list string) : result Collection :=
  match records ids embeddings metadatas documents with
  | None => Raise (PyExc "ValueError" "Unequal lengths for fields")
  | Some batch =>
      if negb (unique_ids ids)
      then Raise (PyExc "DuplicateIDError"
                    "Expected IDs to be unique, found duplicates")
      else
        match on_existing with
        | RejectExisting =>
            if existsb (has_id c) ids
            then Raise (PyExc "IDAlreadyExistsError" "ID already exists")
            else Ok (c ++ batch)%list
        | IgnoreExisting =>
            Ok (c ++ filter (fun e => negb (has_id c (entry_id e))) batch)%list
        end
  end.

(** The distance of the collection's metric (cosine) and the order on
    distances. *)
Variable cosine_distance : list float -> list float -> float.
Variable fleb : float -> float -> bool.

Fixpoint insert_ranked (x : Entry * float) (l : list (Entry * float))
  : list (Entry * float) :=
  match l with
  | [] => [x]
  | y :: rest =>
      if fleb (snd x) (snd y) then x :: y :: rest
      else y :: insert_ranked x rest
  end.

(** The records with their distance to [q], nearest first. *)
Definition ranked (c : Collection) (q : list float) : list (Entry * float) :=
  fold_right
    (fun e acc => insert_ranked (e, cosine_distance q (entry_embedding e)) acc)
    [] c.

(** The dictionary [query] returns for one query embedding with
    [include=['metadatas', 'documents', 'distances']]: each key holds one
    inner list per query embedding. *)
Record QueryResult : Type := {
  ids : list (list string);
  metadatas : list (list Metadata);
  documents : list (list string);
  distances : list (list float)
}.

(** [collection.query(query_embeddings=[q], n_results=n, include=...)] *)
Definition query (c : Collection) (q : list float) (n_results : Z)
  : result QueryResult :=
  if (n_results <=? 0)%Z
  then Raise (PyExc "TypeError"
                "Number of requested results cannot be negative, or zero")
  else
    let hits := firstn (Z.to_nat n_results) (ranked c q) in
    Ok {| ids := [map (fun h => entry_id (fst h)) hits];
          metadatas := [map (fun h => entry_metadata (fst h)) hits];
          documents := [map (fun h => entry_document (fst h)) hits];
          distances := [map snd hits] |}.

End WithFloat.

Arguments entry_id {float} _.
Arguments entry_embedding {float} _.
Arguments entry_metadata {float} _.
Arguments entry_document {float} _.
Arguments stored_ids {float} _.
Arguments has_id {float} _ _.
Arguments get {float} _ _.
Arguments count {float} _.
Arguments add {float} _ _ _ _ _ _.
Arguments ids {float} _.
Arguments metadatas {float} _.
Arguments documents {float} _.
Arguments distances {float} _.
Arguments query {float} _ _ _ _ _.

End Chroma.

(** [l[i]] on a Python list *)
Definition py_index {A : Type} (l : list A) (i : nat) : result A :=
  match nth_error l i with
  | Some x => Ok x
  | None => Raise (PyExc "IndexError" "list index out of range")
  end.

(** ** services/search_service.py *)

Module SearchService.

Import DataProcessor Chroma.

Section WithLibraries.

Variable float : Type.

(** [self.model.encode(query).tolist()] *)
Variable encode : string -> list float.

(** The store's behaviour. *)
Variable on_existing : OnExisting.
Variable cosine_distance : list float -> list float -> float.
Variable fleb : float -> float -> bool.

(** Python's float arithmetic: the literal [1], subtraction and the
    built-in [round(x, ndigits)]. *)
Variable fone : float.
Variable fsub : float -> float -> float.
Variable round : float -> Z -> float.

(** The service object: [self.collection] is [None] until the collection
    exists. *)
Record t : Type := { collection : option (Collection float) }.

(** [is_indexed] *)
Definition is_indexed (self : t) : bool :=
  match collection self with
  | None => false
  | Some c => (0 <? count c)%nat
  end.

Definition metadata_of (doc : ProcessedDoc float) : Metadata :=
  {| md_patent_number := patent_number doc;
     md_title := title doc;
     md_abstract := abstract doc;
     md_claims := claims doc;
     md_description := description doc |}.

(** The four lists [index_documents] prepares. *)
Record Prepared : Type := {
  p_ids : list string;
  p_embeddings : list (list float);
  p_metadatas : list Metadata;
  p_documents_text : list string
}.

(** The loop [for doc in documents]; [doc['embedding']] raises
    [KeyError] when the key is missing. *)
Fixpoint prepare (documents : list (ProcessedDoc float)) (acc : Prepared)
  : result Prepared :=
  match documents with
  | [] => Ok acc
  | doc :: rest =>
      match embedding doc with
      | None => Raise (PyExc "KeyError" "'embedding'")
      | Some e =>
          prepare rest
            {| p_ids := p_ids acc ++ [patent_number doc];
               p_embeddings := p_embeddings acc ++ [e];
               p_metadatas := p_metadatas acc ++ [metadata_of doc];
               p_documents_text :=
                 p_documents_text acc ++ [searchable_text doc] |}%list
      end
  end.

(** The records behind [self.collection] once [index_documents] has
    bound it: those of the existing collection, or none for the
    collection that [create_collection] makes. *)
Definition store (self : t) : Collection float :=
  match collection self with
  | None => []
  | Some c => c
  end.

(** The record a document is stored as. *)
Definition indexes (doc : ProcessedDoc float) (e : Entry float) : Prop :=
  entry_id e = patent_number doc
  /\ embedding doc = Some (entry_embedding e)
  /\ entry_metadata e = metadata_of doc
  /\ entry_document e = searchable_text doc.

(** [index_documents]: the service after the call and the call's
    outcome.  An exception is printed and raised again; the collection,
    once created, stays bound. *)
Definition index_documents (self : t) (documents : list (ProcessedDoc float))
  : t * result unit :=
  let c := store self in
  match prepared <- prepare documents
                      {| p_ids := []; p_embeddings := [];
                         p_metadatas := []; p_documents_text := [] |} ;;
        add on_existing c (p_ids prepared) (p_embeddings prepared)
          (p_metadatas prepared) (p_documents_text prepared)
  with
  | Ok c' => ({| collection := Some c' |}, Ok tt)
  | Raise e => ({| collection := Some c |}, Raise e)
  end.

(** One entry of the list [search] returns. *)
Record SearchResult : Type := {
  res_patent_number : string;
  res_title : string;
  res_abstract : string;
  res_claims : string;
  res_description : string;
  score : float
}.

(** The dictionary built for one hit from its metadata and distance. *)
Definition hit (metadata : Metadata) (distance : float) : SearchResult :=
  let similarity_score := fsub fone distance in
  {| res_patent_number := md_patent_number metadata;
     res_title := md_title metadata;
     res_abstract := md_abstract metadata;
     res_claims := md_claims metadata;
     res_description := md_description metadata;
     score := round similarity_score 4 |}.

(** The body of the loop [for i in range(len(results['metadatas'][0]))]. *)
Definition format_result (results : QueryResult float) (i : nat)
  : result SearchResult :=
  metadatas0 <- py_index (metadatas results) 0 ;;
  metadata <- py_index metadatas0 i ;;
  distances0 <- py_index (distances results) 0 ;;
  distance <- py_index distances0 i ;;
  Ok (hit metadata distance).

(** The part of [search] after the query ("Format results"). *)
Definition format_results (results : QueryResult float)
  : result (list SearchResult) :=
  match metadatas results with
  | metadatas0 :: _ =>
      if (0 <? List.length metadatas0)%nat
      then for_each (format_result results) (seq 0 (List.length metadatas0))
      else Ok []
  | [] => Ok []
  end.

(** [search]: an exception is printed and raised again. *)
Definition search (self : t) (query : string) (top_k : Z)
  : result (list SearchResult) :=
  try_except
    match collection self with
    | None =>
        Raise (PyExc "Exception"
                 "No collection found. Please index documents first.")
    | Some c =>
        let query_embedding := encode query in
        results <- Chroma.query cosine_distance fleb c query_embedding top_k ;;
        format_results results
    end
    (fun e => Raise e).

(** [self.collection_name] *)
Variable collection_name : string.

(** The dictionary [get_collection_stats] returns: the error payload or
    the three statistics. *)
Inductive Stats : Type :=
| StatsError (error : string)
| StatsReady (total_documents : nat) (name : string) (status : string).

(** [get_collection_stats] *)
Definition get_collection_stats (self : t) : Stats :=
  match collection self with
  | None => StatsError "No collection found"
  | Some c => StatsReady (count c) collection_name "ready"
  end.

End WithLibraries.

Arguments get_collection_stats {float} _ _.
Arguments collection {float} _.
Arguments is_indexed {float} _.
Arguments metadata_of {float} _.
Arguments index_documents {float} _ _ _.
Arguments store {float} _.
Arguments indexes {float} _ _.
Arguments res_patent_number {float} _.
Arguments res_title {float} _.
Arguments res_abstract {float} _.
Arguments res_claims {float} _.
Arguments res_description {float} _.
Arguments score {float} _.
Arguments hit {float} _ _ _ _ _.
Arguments format_results {float} _ _ _ _.
Arguments search {float} _ _ _ _ _ _ _ _ _.

End SearchService.

(** ** [str(e)] *)

Definition str_of_Z (z : Z) : string := NilEmpty.string_of_int (Z.to_int z).

(** [str(e)]: the message of an exception; the web framework's
    [HTTPException] prints its status code and detail. *)
Definition exn_str (e : exn) : string :=
  match e with
  | PyExc _ msg => msg
  | HTTPException status_code detail => str_of_Z status_code ++ ": " ++ detail
  end.

(** ** services/summarization_service.py *)

Module SummarizationService.

Definition nl : string := String "010" EmptyString.

(** The arguments of [client.chat.completions.create]. *)
Record ChatRequest : Type := {
  model : string;
  system_content : string;
  user_content : string;
  temperature : string;
  max_tokens : Z;
  top_p : Z;
  stream : bool
}.

Definition no_descriptions : string :=
  "No descriptions available for summarization.".

Definition no_valid_descriptions : string :=
  "No valid descriptions found for summarization.".

Definition fallback_note : string :=
  nl ++ nl ++ "[Note: This summary was generated using a simple extraction method. For better summaries, ensure Groq is available.]".

Definition max_length : nat := 500.

(** The loop of [_simple_summarization]: the sentences are taken while
    [current_length + len(sentence) < max_length]; the first sentence
    that does not fit ends the loop. *)
Fixpoint accumulate (sentences : list string) (current_length : nat)
    (summary_sentences : list string) : list string :=
  match sentences with
  | [] => summary_sentences
  | sentence :: rest =>
      if (current_length + String.length sentence <? max_length)%nat
      then accumulate rest (current_length + String.length sentence)
             (summary_sentences ++ [PyStr.strip sentence])%list
      else summary_sentences
  end.

(** The value of [summary] after the join: the accumulated sentences put
    together again. *)
Definition summary_body (text : string) : string :=
  let sentences := PyStr.split ". " text in
  let summary_sentences := accumulate sentences 0 [] in
  PyStr.join ". " summary_sentences.

(** [if not summary.endswith('.'): summary += '.'] *)
Definition with_period (summary : string) : string :=
  if negb (PyStr.endswith summary ".") then summary ++ "." else summary.

(** [_simple_summarization] *)
Definition _simple_summarization (text : string) : result string :=
  try_except
    (let summary := summary_body text in
     let summary := with_period summary in
     Ok (summary ++ fallback_note))
    (fun e => Ok ("Error generating fallback summary: " ++ exn_str e)).

(** The prefix of the split units the specification describes: the units
    themselves, taken while their cumulative length stays under the
    budget. *)
Fixpoint budget_prefix (units : list string) (used : nat) : list string :=
  match units with
  | [] => []
  | u :: rest =>
      if (used + String.length u <? max_length)%nat
      then u :: budget_prefix rest (used + String.length u)
      else []
  end.

(** The cumulative character length of a list of units. *)
Definition total_length (units : list string) : nat :=
  fold_right (fun u n => String.length u + n) 0 units.

Definition prompt_of (text : string) : string :=
  nl ++
  "        Please provide a comprehensive summary of the following patent descriptions. " ++ nl ++
  "        Focus on the main innovations, technical solutions, and key features described." ++ nl ++
  "        Make the summary technical yet accessible, highlighting the practical applications and benefits:" ++ nl ++
  nl ++
  "        " ++ text ++ nl ++
  nl ++
  "        Summary:" ++ nl ++
  "        ".

Definition request_of (text : string) : ChatRequest :=
  let max_chars := 8000 in
  let text := if (max_chars <? String.length text)%nat
              then PyStr.take max_chars text ++ "..." else text in
  {| model := "llama3-70b-8192";
     system_content :=
       "You are a technical expert specializing in patent analysis and summarization.";
     user_content := prompt_of text;
     temperature := "0.3";
     max_tokens := 512;
     top_p := 1;
     stream := false |}.

(** ["\n\n".join([desc for desc in descriptions if desc])] *)
Definition combine (descriptions : list string) : string :=
  PyStr.join (nl ++ nl)
    (filter (fun desc => negb (PyStr.is_empty desc)) descriptions).

Section WithProvider.

(** [self.client.chat.completions.create(...)]: the message contents of
    the response's choices ([None] for a message without content), or the
    exception raised by the call. *)
Variable chat_completions_create : ChatRequest -> result (list (option string)).

(** A computation that talks to the provider: its outcome and the
    requests it sent, in order. *)
Definition Provider (A : Type) : Type := A * list ChatRequest.

(** [_summarize_with_groq] *)
Definition _summarize_with_groq (text : string) : Provider (result string) :=
  let request := request_of text in
  (choices <- chat_completions_create request ;;
   choice0 <- py_index choices 0 ;;
   match choice0 with
   | Some content => Ok (PyStr.strip content)
   | None => Raise (PyExc "AttributeError"
                      "'NoneType' object has no attribute 'strip'")
   end,
   [request]).

(** [summarize_descriptions] *)
Definition summarize_descriptions (descriptions : list string)
  : Provider (result string) :=
  match descriptions with
  | [] => (Ok no_descriptions, [])
  | _ =>
      let combined_text := combine descriptions in
      if PyStr.is_empty (PyStr.strip combined_text)
      then (Ok no_valid_descriptions, [])
      else
        let '(primary, sent) := _summarize_with_groq combined_text in
        match primary with
        | Ok summary => (Ok summary, sent)
        | Raise _ => (_simple_summarization combined_text, sent)
        end
  end.

End WithProvider.

End SummarizationService.

(** ** app.py *)

Module App.

Import DataProcessor SearchService SummarizationService.

Section WithServices.

Variable float : Type.
Variable soup_get_text : string -> result string.
Variable encode : string -> list float.
Variable data_path : string.
Variable on_existing : Chroma.OnExisting.
Variable cosine_distance : list float -> list float -> float.
Variable fleb : float -> float -> bool.
Variable fone : float.
Variable fsub : float -> float -> float.
Variable round : float -> Z -> float.
Variable chat_completions_create : ChatRequest -> result (list (option string)).

Record DocumentInfo : Type := {
  di_patent_number : string;
  di_title : string;
  relevance_score : float
}.

Record SearchResponse : Type := {
  query : string;
  top_documents : list DocumentInfo;
  summary : string;
  processing_time : float
}.

(** [startup_event]: the corpus is processed and indexed only when the
    store holds no documents. *)
Definition startup_event (search_service : SearchService.t float)
    (data_dir : option (list (string * result PatentJson)))
  : SearchService.t float * result unit :=
  if negb (is_indexed search_service)
  then
    match load_and_process_documents float soup_get_text encode data_path
            data_dir with
    | Ok documents => index_documents on_existing search_service documents
    | Raise e => (search_service, Raise e)
    end
  else (search_service, Ok tt).

(** The parameter declaration [Query(..., min_length=3)]. *)
Definition valid_query (query : string) : bool :=
  (3 <=? String.length query)%nat.

(** The [try] block of the [/search] handler; [start_time] and
    [end_time] are the two readings of [time.time()]. *)
Definition search_body (search_service : SearchService.t float)
    (start_time end_time : float) (query : string) : result SearchResponse :=
  if PyStr.is_empty (PyStr.strip query)
  then Raise (HTTPException 400 "Query cannot be empty")
  else
    search_results <-
      SearchService.search encode cosine_distance fleb fone fsub round
        search_service query 3 ;;
    match search_results with
    | [] => Raise (HTTPException 404 "No relevant documents found")
    | _ =>
        let top_documents :=
          map (fun result =>
                 {| di_patent_number := res_patent_number result;
                    di_title := res_title result;
                    relevance_score := score result |}) search_results in
        let descriptions := map res_description search_results in
        summary <- fst (summarize_descriptions chat_completions_create
                          descriptions) ;;
        let processing_time := fsub end_time start_time in
        Ok {| query := query;
              top_documents := top_documents;
              summary := summary;
              processing_time := round processing_time 3 |}
    end.

(** The [/search] handler: [except Exception as e] turns every exception
    of the [try] block into a status 500. *)
Definition search (search_service : SearchService.t float)
    (start_time end_time : float) (query : string) : result SearchResponse :=
  try_except (search_body search_service start_time end_time query)
    (fun e => Raise (HTTPException 500
                       ("Internal server error: " ++ exn_str e))).

End WithServices.

End App.

(** ** Concrete libraries and data for examples *)

Module Examples.

Import DataProcessor.

(** A text extractor for examples: the characters outside [<...>]. *)
Fixpoint drop_tags (in_tag : bool) (s : string) : string :=
  match s with
  | EmptyString => EmptyString
  | String c r =>
      if Ascii.eqb c "<" then drop_tags true r
      else if Ascii.eqb c ">" then drop_tags false r
      else if in_tag then drop_tags in_tag r
      else String c (drop_tags in_tag r)
  end.

Definition get_text (markup : string) : result string :=
  Ok (drop_tags false markup).

(** [n] copies of the character [c]. *)
Fixpoint replicate (n : nat) (c : ascii) : string :=
  match n with
  | O => EmptyString
  | S k => String c (replicate k c)
  end.

(** Embeddings for examples: one integer component, the text's length. *)
Definition encode (text : string) : list Z := [Z.of_nat (String.length text)].

Definition markup (s : string) : Markup := {| paragraph_markup := Some s |}.

(** A patent object with one title, abstract, claim and description. *)
Definition patent (number title abstract claim description : string)
  : PatentJson :=
  {| raw_patent_number := Some number;
     raw_titles := Some [ {| text := Some title |} ];
     raw_abstracts := Some [markup abstract];
     raw_claims := Some [ {| group_claims := Some [markup claim] |} ];
     raw_descriptions := Some [markup description] |}.

Definition long_description : string := replicate 2001 "a".

Definition patent_long : PatentJson :=
  patent "P1" "Chip cooler" "<p>A device for cooling chips</p>"
    "Claim one text" long_description.

Definition patent_short : PatentJson :=
  patent "P2" "Water heater" "A method for heating water"
    "Claim two text" "<b>Water</b>  is heated.".

(** A patent object without abstract and without claims. *)
Definition patent_blank : PatentJson :=
  {| raw_patent_number := Some "P3";
     raw_titles := Some [ {| text := Some "Untitled" |} ];
     raw_abstracts := None;
     raw_claims := Some [];
     raw_descriptions := Some [markup "A description."] |}.

(** A data directory: three patent files, a file that is not JSON and a
    file that cannot be parsed. *)
Definition data_dir : option (list (string * result PatentJson)) :=
  Some [ ("p1.json", Ok patent_long);
         ("notes.txt", Ok patent_short);
         ("p2.json", Ok patent_short);
         ("broken.json", Raise (PyExc "JSONDecodeError" "Expecting value"));
         ("p3.json", Ok patent_blank) ].

(** A provider that is down, and one that answers. *)
Definition provider_down (request : SummarizationService.ChatRequest)
  : result (list (option string)) :=
  Raise (PyExc "APIConnectionError" "Connection error.").

Definition provider_up (request : SummarizationService.ChatRequest)
  : result (list (option string)) :=
  Ok [Some " A summary of the patents. "].

(** The combined text of two passages, the first ending in ". ". *)
Definition two_passages : string :=
  SummarizationService.combine
    ["A fan cools the chip. "; "A pump moves water"].

(** Numbers for examples: integers counting ten-thousandths stand for
    the floats, so that [one] is 1.0 and rounding to four digits keeps
    the number. *)
Definition one : Z := 10000.

Definition sub (x y : Z) : Z := (x - y)%Z.

Definition round (x : Z) (ndigits : Z) : Z := x.

Definition leb (x y : Z) : bool := (x <=? y)%Z.

(** A distance for examples: how far apart the first components are. *)
Definition distance (q v : list Z) : Z := Z.abs (hd 0%Z q - hd 0%Z v).

Definition document (number title abstract claims : string)
  : ProcessedDoc Z :=
  let searchable_text := PyStr.strip (abstract ++ " " ++ claims) in
  {| patent_number := number;
     title := title;
     abstract := abstract;
     claims := claims;
     description := "";
     searchable_text := searchable_text;
     embedding := Some (encode searchable_text) |}.

Definition doc1 : ProcessedDoc Z :=
  document "P1" "Chip cooler" "A device for cooling chips" "Claim one text".

Definition doc2 : ProcessedDoc Z :=
  document "P2" "Water heater" "A method for heating water in a tank"
    "Claim two text".

(** The record of [doc1] again, under the same id, with another title. *)
Definition doc1_revised : ProcessedDoc Z :=
  document "P1" "Chip cooler, second edition" "A device for cooling chips"
    "Claim one text".

(** A service whose collection was never created, and one whose
    collection exists and is empty. *)
Definition service_new : SearchService.t Z :=
  {| SearchService.collection := None |}.

Definition service_empty : SearchService.t Z :=
  {| SearchService.collection := Some [] |}.

(** The service after indexing [doc1] and then its revised record, in two
    calls. *)
Definition indexed_twice (policy : Chroma.OnExisting) : SearchService.t Z :=
  fst (SearchService.index_documents policy
         (fst (SearchService.index_documents policy service_new [doc1]))
         [doc1_revised]).

(** The service after indexing [doc1] and [doc2] in one call. *)
Definition service_ready : SearchService.t Z :=
  fst (SearchService.index_documents Chroma.IgnoreExisting service_new
         [doc1; doc2]).

(** A text extractor that rejects one markup. *)
Definition get_text_strict (markup : string) : result string :=
  if String.eqb markup "<<"
  then Raise (PyExc "ParserRejectedMarkup" "malformed start tag")
  else get_text markup.

(** A patent object with six claims; the parser above rejects the sixth. *)
Definition patent_six_claims : PatentJson :=
  {| raw_patent_number := Some "P6";
     raw_titles := Some [ {| text := Some "Six claims" |} ];
     raw_abstracts := Some [markup "A valve"];
     raw_claims :=
       Some [ {| group_claims :=
                   Some [markup "one"; markup "two"; markup "three";
                         markup "four"; markup "five"; markup "<<"] |} ];
     raw_descriptions := None |}.

(** A patent object whose description the parser above rejects. *)
Definition patent_rejected : PatentJson :=
  patent "P7" "Rejected" "A pump" "Claim text" "<<".

(** The record of [doc1] before the loader has added its embedding. *)
Definition doc1_unembedded : ProcessedDoc Z :=
  {| patent_number := patent_number doc1;
     title := title doc1;
     abstract := abstract doc1;
     claims := claims doc1;
     description := description doc1;
     searchable_text := searchable_text doc1;
     embedding := None |}.

(** A text of 500 characters without delimiter. *)
Definition long_sentence : string := replicate 500 "a".

(** A record with a description, and the service that has indexed it. *)
Definition doc_described : ProcessedDoc Z :=
  {| patent_number := "P8";
     title := "Fan";
     abstract := "A fan for cooling chips";
     claims := "Claim one text";
     description := "A fan moves air over the chip.";
     searchable_text := "A fan for cooling chips Claim one text";
     embedding := Some (encode "A fan for cooling chips Claim one text") |}.

Definition service_described : SearchService.t Z :=
  fst (SearchService.index_documents Chroma.IgnoreExisting service_new
         [doc_described]).

End Examples.

(** * Properties *)

(** ** Strings *)

Section StringFacts.

Import PyStr.

Lemma string_length_app (s t : string) :
  String.length (s ++ t) = String.length s + String.length t.
Proof. induction s as [|c s IH]; simpl; [reflexivity | now rewrite IH]. Qed.

Lemma take_length (n : nat) (s : string) :
  String.length (take n s) = Nat.min n (String.length s).
Proof.
  revert s; induction n as [|n IH]; intros [|c s]; simpl; auto.
Qed.

Lemma is_empty_true (s : string) : is_empty s = true <-> s = "".
Proof. destruct s; simpl; split; congruence. Qed.

Lemma is_empty_false (s : string) : is_empty s = false <-> s <> "".
Proof. destruct s; simpl; split; congruence. Qed.

Lemma sub_ws_in_run_starts (s : string) : starts_ws (sub_ws true s) = false.
Proof.
  induction s as [|c s IH]; simpl; [reflexivity|].
  destruct (isspace c) eqn:Hc; simpl; auto.
Qed.

Lemma sub_ws_no_pair (s : string) (b : bool) : has_ws_pair (sub_ws b s) = false.
Proof.
  revert b; induction s as [|c s IH]; intros b; simpl; [reflexivity|].
  destruct (isspace c) eqn:Hc.
  - destruct b; [apply IH|].
    simpl. rewrite sub_ws_in_run_starts, IH. reflexivity.
  - simpl. rewrite Hc, IH. reflexivity.
Qed.

Lemma sub_ws_spaces (s : string) (b : bool) : ws_are_spaces (sub_ws b s) = true.
Proof.
  revert b; induction s as [|c s IH]; intros b; simpl; [reflexivity|].
  destruct (isspace c) eqn:Hc.
  - destruct b; [apply IH|]. simpl. apply IH.
  - simpl. rewrite Hc, IH. reflexivity.
Qed.

Lemma sub_ws_visible (s : string) (b : bool) : visible (sub_ws b s) = visible s.
Proof.
  revert b; induction s as [|c s IH]; intros b; simpl; [reflexivity|].
  destruct (isspace c) eqn:Hc.
  - destruct b; [apply IH|]. simpl. apply IH.
  - simpl. rewrite Hc, IH. reflexivity.
Qed.

Lemma rstrip_ends (s : string) : ends_ws (rstrip s) = false.
Proof.
  induction s as [|c s IH]; simpl; [reflexivity|].
  destruct (isspace c) eqn:Hc; destruct (rstrip s) eqn:Hr; simpl; auto.
Qed.

Lemma rstrip_starts (s : string) :
  starts_ws (rstrip s) = true -> starts_ws s = true.
Proof.
  destruct s as [|c s]; simpl; [auto|].
  destruct (isspace c && is_empty (rstrip s)); simpl; congruence.
Qed.

Lemma rstrip_no_pair (s : string) :
  has_ws_pair s = false -> has_ws_pair (rstrip s) = false.
Proof.
  induction s as [|c s IH]; simpl; [auto|].
  intros H. apply orb_false_iff in H as [H1 H2].
  destruct (isspace c && is_empty (rstrip s)); simpl; [reflexivity|].
  rewrite (IH H2), orb_false_r.
  destruct (isspace c); simpl in *; [|reflexivity].
  destruct (starts_ws (rstrip s)) eqn:E; [|reflexivity].
  apply rstrip_starts in E. congruence.
Qed.

Lemma rstrip_spaces (s : string) :
  ws_are_spaces s = true -> ws_are_spaces (rstrip s) = true.
Proof.
  induction s as [|c s IH]; simpl; [auto|].
  intros H. apply andb_true_iff in H as [H1 H2].
  destruct (isspace c && is_empty (rstrip s)); simpl; [reflexivity|].
  now rewrite H1, (IH H2).
Qed.

Lemma visible_empty_rstrip (s : string) :
  rstrip s = "" -> visible s = "".
Proof.
  induction s as [|c s IH]; simpl; [auto|].
  destruct (isspace c) eqn:Hc; simpl.
  - destruct (rstrip s); simpl; [auto | discriminate].
  - discriminate.
Qed.

Lemma rstrip_visible (s : string) : visible (rstrip s) = visible s.
Proof.
  induction s as [|c s IH]; simpl; [reflexivity|].
  destruct (isspace c) eqn:Hc; simpl.
  - destruct (rstrip s) eqn:Hr; simpl.
    + symmetry. now apply visible_empty_rstrip.
    + rewrite Hc. exact IH.
  - rewrite Hc, IH. reflexivity.
Qed.

Lemma lstrip_starts (s : string) : starts_ws (lstrip s) = false.
Proof.
  induction s as [|c s IH]; simpl; [reflexivity|].
  destruct (isspace c) eqn:Hc; simpl; auto.
Qed.

Lemma lstrip_ends (s : string) :
  ends_ws s = false -> ends_ws (lstrip s) = false.
Proof.
  induction s as [|c s IH]; [auto|].
  intros H. simpl lstrip. destruct (isspace c) eqn:Hc; [|exact H].
  destruct s as [|d s]; [reflexivity|]. apply IH. exact H.
Qed.

Lemma lstrip_no_pair (s : string) :
  has_ws_pair s = false -> has_ws_pair (lstrip s) = false.
Proof.
  induction s as [|c s IH]; [auto|].
  intros H. simpl lstrip. destruct (isspace c) eqn:Hc; [|exact H].
  apply IH. simpl in H. now apply orb_false_iff in H as [_ H].
Qed.

Lemma lstrip_spaces (s : string) :
  ws_are_spaces s = true -> ws_are_spaces (lstrip s) = true.
Proof.
  induction s as [|c s IH]; [auto|].
  intros H. simpl lstrip. destruct (isspace c) eqn:Hc; [|exact H].
  apply IH. simpl in H. now apply andb_true_iff in H as [_ H].
Qed.

Lemma lstrip_visible (s : string) : visible (lstrip s) = visible s.
Proof.
  induction s as [|c s IH]; simpl; [reflexivity|].
  destruct (isspace c) eqn:Hc; simpl; [exact IH | now rewrite Hc].
Qed.

Lemma strip_visible (s : string) : visible (strip s) = visible s.
Proof. unfold strip. now rewrite lstrip_visible, rstrip_visible. Qed.

(** What [strip] returns has no whitespace at its ends. *)
Lemma strip_trimmed (s : string) :
  starts_ws (strip s) = false /\ ends_ws (strip s) = false.
Proof.
  unfold strip; split; [apply lstrip_starts|].
  apply lstrip_ends, rstrip_ends.
Qed.

Lemma strip_empty_iff (s : string) : strip s = "" <-> visible s = "".
Proof.
  split; intros H.
  - rewrite <- strip_visible, H. reflexivity.
  - rewrite <- strip_visible in H.
    destruct (strip_trimmed s) as [Hs _].
    destruct (strip s) as [|c r]; [reflexivity|].
    simpl in Hs, H. rewrite Hs in H. discriminate.
Qed.

(** *** Splitting and joining *)

Lemma take_drop (n : nat) (s : string) : take n s ++ drop n s = s.
Proof.
  revert s; induction n as [|n IH]; intros [|c s]; simpl; auto.
  now rewrite IH.
Qed.

Lemma drop_length (n : nat) (s : string) :
  String.length (drop n s) <= String.length s.
Proof.
  revert s; induction n as [|n IH]; intros [|c s]; simpl; auto.
Qed.

Lemma starts_with_drop (p s : string) :
  starts_with p s = true -> s = p ++ drop (String.length p) s.
Proof.
  revert s; induction p as [|a p IH]; intros s H; [now destruct s|].
  destruct s as [|b s]; simpl in H; [discriminate|].
  apply andb_true_iff in H as [Hab H]. apply Ascii.eqb_eq in Hab as ->.
  simpl. f_equal. now apply IH.
Qed.

Lemma split_from_skip (sep s : string) (skip : nat) :
  split_from sep skip s = split_from sep 0 (drop skip s).
Proof.
  revert skip; induction s as [|c s IH]; intros [|k]; try reflexivity.
  simpl drop. rewrite <- IH. reflexivity.
Qed.

Lemma join_cons_char (sep : string) (c : ascii) (u : string)
    (us : list string) :
  join sep (String c u :: us) = String c (join sep (u :: us)).
Proof. destruct us; reflexivity. Qed.

Lemma join_split_from (sep : string) (n : nat) (s : string) :
  sep <> "" -> String.length s <= n ->
  join sep (fst (split_from sep 0 s) :: snd (split_from sep 0 s)) = s.
Proof.
  intros Hsep. revert s. induction n as [|n IH]; intros [|c r] Hlen;
    try reflexivity; simpl in Hlen; [lia|].
  simpl split_from.
  destruct (starts_with sep (String c r)) eqn:Hp.
  - rewrite split_from_skip.
    destruct (split_from sep 0 (drop (String.length sep - 1) r))
      as [u us] eqn:E.
    cbn [fst snd].
    change (join sep ("" :: u :: us)) with ("" ++ sep ++ join sep (u :: us)).
    pose proof (IH (drop (String.length sep - 1) r)) as Hrest.
    rewrite E in Hrest. cbn [fst snd] in Hrest.
    rewrite Hrest.
    + apply starts_with_drop in Hp.
      destruct sep as [|a sep']; [congruence|].
      replace (String.length (String a sep') - 1)
        with (String.length sep') by (simpl; lia).
      simpl in Hp. simpl. now rewrite <- Hp.
    + pose proof (drop_length (String.length sep - 1) r). lia.
  - destruct (split_from sep 0 r) as [u us] eqn:E. cbn [fst snd].
    rewrite join_cons_char. f_equal.
    pose proof (IH r) as Hrest. rewrite E in Hrest. apply Hrest. lia.
Qed.

(** Joining the units of a split with the separator gives the text back,
    as in Python. *)
Lemma join_split (sep s : string) : sep <> "" -> join sep (split sep s) = s.
Proof.
  intros Hsep. unfold split.
  pose proof (join_split_from sep (String.length s) s Hsep (le_n _)) as H.
  destruct (split_from sep 0 s) as [u us]. exact H.
Qed.

Example split_sentences :
  split ". " "A fan. It cools.. The chip. " = ["A fan"; "It cools."; "The chip"; ""].
Proof. reflexivity. Qed.

Example split_without_delimiter : split ". " "" = [""].
Proof. reflexivity. Qed.

Example collapse_and_strip :
  strip (re_sub_ws (String "009" " A  device" ++ String "010" " for   cooling "))
  = "A device for cooling".
Proof. reflexivity. Qed.

End StringFacts.

(** ** The document normaliser *)

Section DataProcessorFacts.

Import PyStr DataProcessor.

Variable float : Type.
Variable soup_get_text : string -> result string.
Variable encode : string -> list float.
Variable data_path : string.

Local Notation clean_html_content :=
  (DataProcessor.clean_html_content soup_get_text).
Local Notation extract_patent_data :=
  (DataProcessor.extract_patent_data float soup_get_text).

(** C10.  [clean_html_content] returns the empty string for [None] and for
    the empty string.  For any other input on which the markup parser
    returns a text, it returns that text with every whitespace run
    replaced by one space and the ends trimmed: the result has no leading
    and no trailing whitespace, no two adjacent whitespace characters,
    its only whitespace character is the space, and its visible
    characters are those of the parsed text. *)
Theorem clean_html_content_collapses (content : option string) :
  ((content = None \/ content = Some "") -> clean_html_content content = Ok "")
  /\
  (forall markup extracted,
      content = Some markup -> markup <> "" ->
      soup_get_text markup = Ok extracted ->
      exists cleaned,
        clean_html_content content = Ok cleaned
        /\ cleaned = strip (re_sub_ws extracted)
        /\ starts_ws cleaned = false
        /\ ends_ws cleaned = false
        /\ has_ws_pair cleaned = false
        /\ ws_are_spaces cleaned = true
        /\ visible cleaned = visible extracted).
Proof.
  split.
  - intros [-> | ->]; reflexivity.
  - intros markup extracted -> Hne Hparse.
    exists (strip (re_sub_ws extracted)).
    split.
    { destruct markup as [|c r]; [congruence|].
      unfold DataProcessor.clean_html_content. rewrite Hparse. reflexivity. }
    split; [reflexivity|].
    destruct (strip_trimmed (re_sub_ws extracted)) as [Hs He].
    repeat split; auto.
    + unfold strip. apply lstrip_no_pair, rstrip_no_pair, sub_ws_no_pair.
    + unfold strip. apply lstrip_spaces, rstrip_spaces, sub_ws_spaces.
    + rewrite strip_visible. apply sub_ws_visible.
Qed.

Lemma bind_ok {A B : Type} (r : result A) (k : A -> result B) (b : B) :
  bind r k = Ok b -> exists a, r = Ok a /\ k a = Ok b.
Proof. destruct r as [a|e]; simpl; [eauto | discriminate]. Qed.

(** What a successful extraction computed, field by field. *)
Lemma extract_body_fields (patent_json : PatentJson)
    (doc : ProcessedDoc float) :
  extract_body float soup_get_text patent_json = Ok doc ->
  exists description_text,
    match dict_get (raw_descriptions patent_json) [] with
    | d :: _ =>
        exists cleaned,
          clean_html_content (Some (dict_get (paragraph_markup d) ""))
          = Ok cleaned
          /\ description_text = limit_description cleaned
    | [] => description_text = ""
    end
    /\ description doc = description_text
    /\ searchable_text doc = strip (abstract doc ++ " " ++ claims doc)
    /\ embedding doc = None.
Proof.
  unfold extract_body. intros H.
  apply bind_ok in H as (abstract_text & _ & H).
  apply bind_ok in H as (claims_text & _ & H).
  apply bind_ok in H as (description_text & Hd & H).
  injection H as <-. simpl.
  exists description_text. split; [|auto].
  destruct (dict_get (raw_descriptions patent_json) []) as [|d rest].
  - now injection Hd as <-.
  - apply bind_ok in Hd as (cleaned & Hc & Hd).
    injection Hd as <-. exists cleaned. auto.
Qed.

Lemma extract_patent_data_some (patent_json : PatentJson)
    (doc : ProcessedDoc float) :
  extract_patent_data patent_json = Some doc <->
  extract_body float soup_get_text patent_json = Ok doc.
Proof.
  unfold DataProcessor.extract_patent_data.
  destruct (extract_body float soup_get_text patent_json);
    split; congruence.
Qed.

Lemma for_each_total {A B : Type} (f : A -> result B) (l : list A) :
  (forall x, In x l -> exists y, f x = Ok y) ->
  exists ys, for_each f l = Ok ys.
Proof.
  induction l as [|x l IH]; intros H; simpl; [eauto|].
  destruct (H x) as (y & ->); [now left|].
  destruct IH as (ys & ->); [intros; apply H; now right|].
  simpl. eauto.
Qed.

Lemma clean_html_content_total (content : option string) :
  (forall markup, exists extracted, soup_get_text markup = Ok extracted) ->
  exists cleaned, clean_html_content content = Ok cleaned.
Proof.
  intros Hparse. destruct content as [[|c r]|]; simpl; eauto.
  destruct (Hparse (String c r)) as (extracted & ->). simpl. eauto.
Qed.

(** When the markup parser returns a text for every markup, every patent
    object is extracted. *)
Lemma extract_patent_data_total (patent_json : PatentJson) :
  (forall markup, exists extracted, soup_get_text markup = Ok extracted) ->
  exists doc, extract_patent_data patent_json = Some doc.
Proof.
  intros Hparse.
  unfold DataProcessor.extract_patent_data, extract_body.
  destruct (dict_get (raw_abstracts patent_json) []) as [|a ?];
    [|destruct (clean_html_content_total
                  (Some (dict_get (paragraph_markup a) "")) Hparse)
        as (? & ->)];
    cbn [bind].
  all: destruct (dict_get (raw_claims patent_json) []) as [|g ?];
    [|destruct (for_each_total
                  (fun claim =>
                     clean_html_content
                       (Some (dict_get (paragraph_markup claim) "")))
                  (firstn 5 (dict_get (group_claims g) [])))
        as (? & ->);
      [intros; now apply clean_html_content_total|]];
    cbn [bind].
  all: destruct (dict_get (raw_descriptions patent_json) []) as [|d ?];
    [|destruct (clean_html_content_total
                  (Some (dict_get (paragraph_markup d) "")) Hparse)
        as (? & ->)];
    cbn [bind]; eauto.
Qed.

(** A record without descriptions is stored with the empty description. *)
Lemma description_absent (patent_json : PatentJson)
    (doc : ProcessedDoc float) :
  extract_patent_data patent_json = Some doc ->
  dict_get (raw_descriptions patent_json) [] = [] ->
  description doc = "".
Proof.
  intros Hdoc Hdescs.
  apply extract_patent_data_some, extract_body_fields in Hdoc
    as (text & Hshape & -> & _).
  now rewrite Hdescs in Hshape.
Qed.

(** C6.  When a record is extracted and the cleaned text of its first
    description has length L, the stored description is the first 2000
    characters followed by the three-character ellipsis (2003 characters
    in all) if L > 2000, and the cleaned text itself if L <= 2000. *)
Theorem description_truncated_at_2000 (patent_json : PatentJson)
    (doc : ProcessedDoc float) (d : Markup) (rest : list Markup)
    (cleaned : string) :
  extract_patent_data patent_json = Some doc ->
  dict_get (raw_descriptions patent_json) [] = d :: rest ->
  clean_html_content (Some (dict_get (paragraph_markup d) "")) = Ok cleaned ->
  (2000 < String.length cleaned ->
   description doc = take 2000 cleaned ++ "..."
   /\ String.length (description doc) = 2003)
  /\ (String.length cleaned <= 2000 -> description doc = cleaned).
Proof.
  intros Hdoc Hdescs Hclean.
  apply extract_patent_data_some, extract_body_fields in Hdoc
    as (text & Hshape & -> & _).
  rewrite Hdescs in Hshape. destruct Hshape as (cleaned' & Hclean' & ->).
  rewrite Hclean in Hclean'. injection Hclean' as <-.
  unfold limit_description. split; intros HL.
  - apply Nat.ltb_lt in HL as HL'. rewrite HL'. split; [reflexivity|].
    rewrite string_length_app, take_length, Nat.min_l by lia.
    reflexivity.
  - destruct (2000 <? String.length cleaned)%nat eqn:E; [|reflexivity].
    apply Nat.ltb_lt in E. lia.
Qed.

Local Notation process_file :=
  (DataProcessor.process_file float soup_get_text encode).
Local Notation process_files :=
  (DataProcessor.process_files float soup_get_text encode).
Local Notation contribution :=
  (DataProcessor.contribution float soup_get_text encode).

Lemma process_files_flat_map (files : list (string * result PatentJson))
    (documents : list (ProcessedDoc float)) :
  process_files files documents
  = (documents ++ flat_map contribution files)%list.
Proof.
  revert documents; induction files as [|[name loaded] files IH];
    intros documents; simpl.
  - now rewrite app_nil_r.
  - rewrite IH. unfold DataProcessor.contribution at 2. simpl.
    destruct (process_file loaded); simpl; [|reflexivity].
    now rewrite <- app_assoc.
Qed.

Lemma process_file_some (loaded : result PatentJson)
    (doc : ProcessedDoc float) :
  process_file loaded = Some doc ->
  searchable_text doc <> ""
  /\ searchable_text doc = strip (abstract doc ++ " " ++ claims doc).
Proof.
  unfold DataProcessor.process_file.
  destruct loaded as [patent_data|e]; [|discriminate].
  destruct (extract_patent_data patent_data) as [processed|] eqn:E;
    [|discriminate].
  destruct (is_empty (searchable_text processed)) eqn:Hempty;
    simpl; [discriminate|].
  intros H; injection H as <-. simpl.
  apply extract_patent_data_some, extract_body_fields in E
    as (text & _ & _ & Hs & _).
  split; [now apply is_empty_false | exact Hs].
Qed.

Lemma contribution_text (files : list (string * result PatentJson))
    (doc : ProcessedDoc float) :
  In doc (flat_map contribution files) ->
  searchable_text doc <> ""
  /\ searchable_text doc = strip (abstract doc ++ " " ++ claims doc).
Proof.
  intros Hdoc. apply in_flat_map in Hdoc as ([name loaded] & _ & Hc).
  unfold DataProcessor.contribution in Hc. simpl in Hc.
  destruct (process_file loaded) as [doc'|] eqn:E; [|contradiction].
  destruct Hc as [<- | []]. now apply process_file_some in E.
Qed.

Lemma load_and_process_documents_ok
    (data_dir : option (list (string * result PatentJson)))
    (documents : list (ProcessedDoc float)) :
  load_and_process_documents float soup_get_text encode data_path data_dir
  = Ok documents ->
  exists listing,
    data_dir = Some listing
    /\ documents
       = flat_map contribution
           (filter (fun f => endswith (fst f) ".json") listing).
Proof.
  unfold load_and_process_documents.
  destruct data_dir as [listing|]; [|discriminate].
  intros H; injection H as <-. exists listing. split; [reflexivity|].
  now rewrite process_files_flat_map.
Qed.

(** C7.  Every document returned by [load_and_process_documents] has a
    non-empty searchable text.  The returned list is, in order, what each
    JSON file of the directory contributes, and a record whose abstract
    and claims are both empty has an empty searchable text and
    contributes nothing: no returned document has both fields empty. *)
Theorem loaded_documents_have_searchable_text
    (listing : list (string * result PatentJson))
    (documents : list (ProcessedDoc float)) :
  load_and_process_documents float soup_get_text encode data_path
    (Some listing) = Ok documents ->
  (forall doc, In doc documents -> searchable_text doc <> "")
  /\ documents
     = flat_map contribution
         (filter (fun f => endswith (fst f) ".json") listing)
  /\ (forall patent_json processed,
         extract_patent_data patent_json = Some processed ->
         abstract processed = "" -> claims processed = "" ->
         searchable_text processed = ""
         /\ process_file (Ok patent_json) = None)
  /\ (forall doc, In doc documents ->
         ~ (abstract doc = "" /\ claims doc = "")).
Proof.
  intros H. apply load_and_process_documents_ok in H as (l & Hl & ->).
  injection Hl as <-.
  split; [|split; [reflexivity | split]].
  - intros doc Hdoc. now apply contribution_text in Hdoc.
  - intros patent_json processed E Ha Hc.
    assert (Hs : searchable_text processed = "").
    { apply extract_patent_data_some, extract_body_fields in E
        as (text & _ & _ & Hs & _).
      rewrite Hs, Ha, Hc. reflexivity. }
    split; [exact Hs|].
    unfold DataProcessor.process_file. rewrite E, Hs. reflexivity.
  - intros doc Hdoc [Ha Hc].
    apply contribution_text in Hdoc as [Hne Hs].
    apply Hne. rewrite Hs, Ha, Hc. reflexivity.
Qed.

(** *** Further properties of the normaliser *)

Lemma limit_description_length (cleaned : string) :
  String.length (limit_description cleaned) <= 2003.
Proof.
  unfold limit_description.
  destruct (2000 <? String.length cleaned)%nat eqn:E.
  - apply Nat.ltb_lt in E.
    rewrite string_length_app, take_length, Nat.min_l by lia.
    apply Nat.eq_le_incl. reflexivity.
  - apply Nat.ltb_ge in E. lia.
Qed.

(** X1.  The description stored for an extracted record never has more
    than 2003 characters, whatever the length of the markup. *)
Theorem description_length_bounded (patent_json : PatentJson)
    (doc : ProcessedDoc float) :
  extract_patent_data patent_json = Some doc ->
  String.length (description doc) <= 2003.
Proof.
  intros Hdoc.
  apply extract_patent_data_some, extract_body_fields in Hdoc
    as (text & Hshape & -> & _).
  destruct (dict_get (raw_descriptions patent_json) []) as [|d rest].
  - subst text. apply Nat.le_0_l.
  - destruct Hshape as (cleaned & _ & ->). apply limit_description_length.
Qed.

Lemma lstrip_id (s : string) : starts_ws s = false -> lstrip s = s.
Proof. destruct s as [|c r]; simpl; [auto | now intros ->]. Qed.

Lemma rstrip_id (s : string) : ends_ws s = false -> rstrip s = s.
Proof.
  induction s as [|c r IH]; [auto|].
  intros H. simpl rstrip. destruct r as [|d r].
  - simpl in *. now rewrite H.
  - rewrite IH by exact H. now rewrite andb_false_r.
Qed.

Lemma rstrip_app_space (s : string) : rstrip (s ++ " ") = rstrip s.
Proof.
  induction s as [|c r IH]; [reflexivity|].
  simpl. now rewrite IH.
Qed.

Lemma clean_html_content_trimmed (content : option string) (cleaned : string) :
  clean_html_content content = Ok cleaned ->
  starts_ws cleaned = false /\ ends_ws cleaned = false
  /\ has_ws_pair cleaned = false.
Proof.
  destruct content as [[|c r]|]; simpl; try (intros H; injection H as <-; auto).
  destruct (soup_get_text (String c r)) as [t|e]; simpl; [|discriminate].
  intros H; injection H as <-.
  destruct (strip_trimmed (re_sub_ws t)) as [Hs He].
  repeat split; auto.
  unfold strip. apply lstrip_no_pair, rstrip_no_pair, sub_ws_no_pair.
Qed.

Lemma extract_body_abstract (patent_json : PatentJson)
    (doc : ProcessedDoc float) :
  extract_body float soup_get_text patent_json = Ok doc ->
  starts_ws (abstract doc) = false /\ ends_ws (abstract doc) = false
  /\ has_ws_pair (abstract doc) = false.
Proof.
  unfold extract_body. intros H.
  apply bind_ok in H as (abstract_text & Ha & H).
  apply bind_ok in H as (claims_text & _ & H).
  apply bind_ok in H as (description_text & _ & H).
  injection H as <-. simpl.
  destruct (dict_get (raw_abstracts patent_json) []) as [|a rest].
  - injection Ha as <-. auto.
  - now apply clean_html_content_trimmed in Ha.
Qed.

(** X2.  In every extracted record the abstract has no leading, trailing
    or doubled whitespace and the searchable text has no leading or
    trailing whitespace; when the claims text is empty, the searchable
    text is the abstract itself. *)
Theorem extracted_texts_are_trimmed (patent_json : PatentJson)
    (doc : ProcessedDoc float) :
  extract_patent_data patent_json = Some doc ->
  (starts_ws (abstract doc) = false /\ ends_ws (abstract doc) = false
   /\ has_ws_pair (abstract doc) = false)
  /\ (starts_ws (searchable_text doc) = false
      /\ ends_ws (searchable_text doc) = false)
  /\ (claims doc = "" -> searchable_text doc = abstract doc).
Proof.
  intros Hdoc. apply extract_patent_data_some in Hdoc.
  pose proof (extract_body_abstract _ _ Hdoc) as (Hs & He & Hp).
  apply extract_body_fields in Hdoc as (text & _ & _ & Htext & _).
  split; [auto|]. split.
  - rewrite Htext. apply strip_trimmed.
  - intros Hc. rewrite Htext, Hc. unfold strip.
    change (abstract doc ++ " " ++ "") with (abstract doc ++ " ").
    now rewrite rstrip_app_space, rstrip_id, lstrip_id.
Qed.

(** X3.  Only the first claims group and its first five claims are read:
    the record extracted from a patent object is the one extracted from
    the object whose claims are cut down to these five, so a later claim
    cannot change the record or make the extraction fail. *)
Theorem only_first_five_claims_are_read (patent_json : PatentJson)
    (g : ClaimGroup) (rest : list ClaimGroup) :
  dict_get (raw_claims patent_json) [] = g :: rest ->
  extract_patent_data patent_json
  = extract_patent_data
      (with_claims patent_json
         (Some [ {| group_claims :=
                      Some (firstn 5 (dict_get (group_claims g) [])) |} ])).
Proof.
  intros Hg.
  unfold DataProcessor.extract_patent_data, extract_body, with_claims.
  cbn [raw_patent_number raw_titles raw_abstracts raw_claims
       raw_descriptions group_claims dict_get].
  fold (dict_get (raw_claims patent_json) []). rewrite Hg.
  fold (dict_get (group_claims g) []).
  rewrite firstn_firstn, Nat.min_id. reflexivity.
Qed.

Lemma bind_raises {A B : Type} (r : result A) (k : A -> result B) :
  raises (bind r k) <-> raises r \/ exists a, r = Ok a /\ raises (k a).
Proof.
  unfold raises. destruct r as [a|e]; simpl; split.
  - intros H. right. eauto.
  - intros [[e' H] | (a' & H & Hk)]; [discriminate|].
    now injection H as <-.
  - intros _. left. eauto.
  - intros _. eauto.
Qed.

Lemma bind3_raises {A B C D : Type} (r1 : result A) (r2 : result B)
    (r3 : result C) (k : A -> B -> C -> D) :
  raises (a <- r1 ;; b <- r2 ;; c <- r3 ;; Ok (k a b c))
  <-> raises r1 \/ raises r2 \/ raises r3.
Proof.
  unfold raises.
  destruct r1 as [a|e1]; simpl; [|split; eauto].
  destruct r2 as [b|e2]; simpl; [|split; eauto].
  destruct r3 as [c|e3]; simpl; [|split; eauto].
  split; [intros [e H]; discriminate|].
  intros [[e H] | [[e H] | [e H]]]; discriminate.
Qed.

Lemma ok_not_raises {A : Type} (a : A) : ~ raises (Ok a).
Proof. intros [e H]. discriminate. Qed.

Lemma for_each_raises {A B : Type} (f : A -> result B) (l : list A) :
  raises (for_each f l) <-> exists x, In x l /\ raises (f x).
Proof.
  induction l as [|x l IH]; simpl.
  - split; [intros H; now apply ok_not_raises in H | intros (x & [] & _)].
  - rewrite bind_raises. split.
    + intros [H | (y & Hy & H)]; [exists x; auto|].
      apply bind_raises in H as [H | (ys & _ & H)];
        [|now apply ok_not_raises in H].
      apply IH in H as (x' & Hin & H). exists x'. auto.
    + intros (x' & [<- | Hin] & H); [now left|].
      destruct (f x) as [y|e] eqn:E; [|left; exists e; reflexivity].
      right. exists y. split; [reflexivity|].
      apply bind_raises. left. apply IH. eauto.
Qed.

Lemma clean_html_content_raises (markup : string) :
  raises (clean_html_content (Some markup))
  <-> markup <> "" /\ raises (soup_get_text markup).
Proof.
  destruct markup as [|c r]; simpl.
  - split; [intros H; now apply ok_not_raises in H | intros [H _]; congruence].
  - rewrite bind_raises. split.
    + intros [H | (t & _ & H)]; [split; [discriminate | exact H]|].
      now apply ok_not_raises in H.
    + intros [_ H]. now left.
Qed.

Lemma extract_patent_data_none (patent_json : PatentJson) :
  extract_patent_data patent_json = None
  <-> raises (extract_body float soup_get_text patent_json).
Proof.
  unfold DataProcessor.extract_patent_data, raises.
  destruct (extract_body float soup_get_text patent_json) as [doc|e];
    split; try discriminate; eauto.
  intros [e H]. discriminate.
Qed.


Local Notation load_and_process_documents :=
  (DataProcessor.load_and_process_documents float soup_get_text encode
     data_path).

Lemma load_flat_map (listing : list (string * result PatentJson)) :
  load_and_process_documents (Some listing)
  = Ok (flat_map contribution
          (filter (fun f => endswith (fst f) ".json") listing)).
Proof.
  unfold DataProcessor.load_and_process_documents.
  now rewrite process_files_flat_map.
Qed.

(** X5.  The files of the directory are processed one by one, in listing
    order: the documents of a listing in two parts are those of the first
    part followed by those of the second.  A file whose name does not end
    in ".json", that cannot be opened or parsed, whose record is skipped
    by the extraction, or whose searchable text is empty, adds nothing
    and does not stop the loop. *)
Theorem files_are_processed_independently
    (listing1 listing2 : list (string * result PatentJson)) :
  (forall documents1 documents2,
      load_and_process_documents (Some listing1) = Ok documents1 ->
      load_and_process_documents (Some listing2) = Ok documents2 ->
      load_and_process_documents (Some (listing1 ++ listing2)%list)
      = Ok (documents1 ++ documents2)%list)
  /\ (forall name loaded,
         endswith name ".json" = false
         \/ raises loaded
         \/ (exists patent_json,
                loaded = Ok patent_json
                /\ (extract_patent_data patent_json = None
                    \/ exists doc,
                         extract_patent_data patent_json = Some doc
                         /\ searchable_text doc = "")) ->
         load_and_process_documents
           (Some (listing1 ++ (name, loaded) :: listing2)%list)
         = load_and_process_documents (Some (listing1 ++ listing2)%list)).
Proof.
  split.
  - intros documents1 documents2. rewrite !load_flat_map.
    intros H1 H2; injection H1 as <-; injection H2 as <-.
    now rewrite filter_app, flat_map_app.
  - intros name loaded H. rewrite !load_flat_map. f_equal.
    rewrite !filter_app, !flat_map_app. f_equal. simpl.
    destruct (endswith name ".json") eqn:Hjson; [|reflexivity].
    simpl. unfold DataProcessor.contribution at 1. simpl.
    replace (process_file loaded) with (@None (ProcessedDoc float));
      [reflexivity|].
    destruct H as [H | [[e ->] | (patent_json & -> & H)]];
      [discriminate | reflexivity |].
    unfold DataProcessor.process_file.
    destruct H as [-> | (doc & -> & ->)]; reflexivity.
Qed.

Lemma contribution_embedding (files : list (string * result PatentJson))
    (doc : ProcessedDoc float) :
  In doc (flat_map contribution files) ->
  embedding doc = Some (encode (searchable_text doc)).
Proof.
  intros Hdoc. apply in_flat_map in Hdoc as ([name loaded] & _ & Hc).
  unfold DataProcessor.contribution, DataProcessor.process_file in Hc.
  simpl in Hc. destruct loaded as [patent_data|e]; [|contradiction].
  destruct (extract_patent_data patent_data) as [processed|];
    [|contradiction].
  destruct (negb (is_empty (searchable_text processed))); [|contradiction].
  destruct Hc as [<- | []]. reflexivity.
Qed.

(** X6.  Every document the loader returns carries an embedding, and it
    is the encoding of the document's searchable text. *)
Theorem loaded_documents_carry_their_embedding
    (data_dir : option (list (string * result PatentJson)))
    (documents : list (ProcessedDoc float)) (doc : ProcessedDoc float) :
  load_and_process_documents data_dir = Ok documents ->
  In doc documents ->
  embedding doc = Some (encode (searchable_text doc)).
Proof.
  intros Hload Hdoc.
  apply load_and_process_documents_ok in Hload as (listing & _ & ->).
  now apply contribution_embedding in Hdoc.
Qed.

Lemma sub_ws_id (s : string) (in_run : bool) :
  has_ws_pair s = false -> ws_are_spaces s = true ->
  (in_run = true -> starts_ws s = false) ->
  sub_ws in_run s = s.
Proof.
  revert in_run. induction s as [|c r IH]; intros in_run Hp Hs Hrun;
    [reflexivity|].
  simpl in Hp, Hs. apply orb_false_iff in Hp as [Hc Hp].
  apply andb_true_iff in Hs as [Hsp Hs]. simpl.
  destruct (isspace c) eqn:Ec.
  - simpl in Hc, Hsp.
    destruct in_run;
      [specialize (Hrun eq_refl); simpl in Hrun; congruence|].
    apply Ascii.eqb_eq in Hsp. subst c. f_equal.
    apply IH; [exact Hp | exact Hs | intros _; exact Hc].
  - f_equal. apply IH; [exact Hp | exact Hs | discriminate].
Qed.

Lemma clean_html_content_spaces (content : option string) (cleaned : string) :
  clean_html_content content = Ok cleaned -> ws_are_spaces cleaned = true.
Proof.
  destruct content as [[|c r]|]; simpl; try (intros H; injection H as <-; auto).
  destruct (soup_get_text (String c r)) as [t|e]; simpl; [|discriminate].
  intros H; injection H as <-.
  unfold strip. apply lstrip_spaces, rstrip_spaces, sub_ws_spaces.
Qed.

(** X21.  Cleaning is idempotent on text without markup: when the parser
    returns a cleaned text unchanged, cleaning it again gives it back. *)
Theorem cleaning_cleaned_text_changes_nothing (content : option string)
    (cleaned : string) :
  clean_html_content content = Ok cleaned ->
  soup_get_text cleaned = Ok cleaned ->
  clean_html_content (Some cleaned) = Ok cleaned.
Proof.
  intros Hclean Hparse.
  pose proof (clean_html_content_trimmed _ _ Hclean) as (Hs & He & Hp).
  pose proof (clean_html_content_spaces _ _ Hclean) as Hsp.
  destruct cleaned as [|c r]; [reflexivity|].
  unfold DataProcessor.clean_html_content. rewrite Hparse. cbn [bind].
  unfold re_sub_ws, strip.
  rewrite sub_ws_id by (auto; discriminate).
  now rewrite rstrip_id, lstrip_id.
Qed.

End DataProcessorFacts.

(** The theorem at the markup of a paragraph with ragged white space. *)
Lemma clean_html_content_collapses_witness :
  exists cleaned,
    DataProcessor.clean_html_content Examples.get_text
      (Some "<p>  A device   for cooling </p>") = Ok cleaned
    /\ cleaned = PyStr.strip (PyStr.re_sub_ws "  A device   for cooling ")
    /\ PyStr.starts_ws cleaned = false
    /\ PyStr.ends_ws cleaned = false
    /\ PyStr.has_ws_pair cleaned = false
    /\ PyStr.ws_are_spaces cleaned = true
    /\ PyStr.visible cleaned = PyStr.visible "  A device   for cooling ".
Proof.
  apply (proj2 (clean_html_content_collapses Examples.get_text
                  (Some "<p>  A device   for cooling </p>"))
           "<p>  A device   for cooling </p>" "  A device   for cooling ").
  - reflexivity.
  - discriminate.
  - reflexivity.
Defined.

(** The theorem at a description of 2001 characters and at a short one. *)
Lemma description_truncated_at_2000_witness :
  (exists doc,
      DataProcessor.extract_patent_data Z Examples.get_text
        Examples.patent_long = Some doc
      /\ DataProcessor.description doc
         = PyStr.take 2000 Examples.long_description ++ "..."
      /\ String.length (DataProcessor.description doc) = 2003)
  /\ (exists doc,
         DataProcessor.extract_patent_data Z Examples.get_text
           Examples.patent_short = Some doc
         /\ DataProcessor.description doc = "Water is heated.").
Proof.
  split.
  - eexists. split; [reflexivity|].
    apply (description_truncated_at_2000 Z Examples.get_text
             Examples.patent_long _
             (Examples.markup Examples.long_description) []
             Examples.long_description).
    + reflexivity.
    + reflexivity.
    + vm_compute. reflexivity.
    + apply Nat.ltb_lt. vm_compute. reflexivity.
  - eexists. split; [reflexivity|].
    apply (description_truncated_at_2000 Z Examples.get_text
             Examples.patent_short _
             (Examples.markup "<b>Water</b>  is heated.") []
             "Water is heated.").
    + reflexivity.
    + reflexivity.
    + reflexivity.
    + apply Nat.leb_le. vm_compute. reflexivity.
Defined.

(** The theorem at a directory of five files, two of which yield a
    document. *)
Lemma loaded_documents_have_searchable_text_witness :
  exists documents,
    DataProcessor.load_and_process_documents Z Examples.get_text
      Examples.encode "./patent_jsons/" Examples.data_dir = Ok documents
    /\ map DataProcessor.patent_number documents = ["P1"; "P2"]
    /\ (forall doc, In doc documents ->
          DataProcessor.searchable_text doc <> "")
    /\ (forall doc, In doc documents ->
          ~ (DataProcessor.abstract doc = ""
             /\ DataProcessor.claims doc = "")).
Proof.
  eexists. split; [reflexivity|]. split; [vm_compute; reflexivity|].
  split.
  - apply (loaded_documents_have_searchable_text Z Examples.get_text
             Examples.encode "./patent_jsons/" _ _ eq_refl).
  - apply (loaded_documents_have_searchable_text Z Examples.get_text
             Examples.encode "./patent_jsons/" _ _ eq_refl).
Defined.

(** ** The synthesis service *)

Section SummarizationFacts.

Import PyStr SummarizationService.

Lemma visible_app (a b : string) : visible (a ++ b) = visible a ++ visible b.
Proof.
  induction a as [|c a IH]; simpl; [reflexivity|].
  destruct (isspace c); simpl; now rewrite IH.
Qed.

Lemma append_empty (a b : string) : a ++ b = "" -> a = "" /\ b = "".
Proof. destruct a; simpl; [auto | discriminate]. Qed.

Lemma all_ws_true (s : string) : all_ws s = true <-> visible s = "".
Proof. apply is_empty_true. Qed.

Lemma all_ws_false (s : string) : all_ws s = false <-> visible s <> "".
Proof. apply is_empty_false. Qed.

Lemma visible_join_empty (sep : string) (l : list string) :
  visible sep = "" ->
  (forall d, In d l -> visible d = "") ->
  visible (join sep l) = "".
Proof.
  intros Hsep. induction l as [|x rest IH]; intros Hall; [reflexivity|].
  destruct rest as [|y rest].
  - apply Hall. now left.
  - change (join sep (x :: y :: rest)) with (x ++ sep ++ join sep (y :: rest)).
    rewrite !visible_app, Hsep, (Hall x) by now left.
    simpl. apply IH. intros d Hd. apply Hall. now right.
Qed.

Lemma visible_join_inhabited (sep : string) (l : list string) (d : string) :
  In d l -> visible d <> "" -> visible (join sep l) <> "".
Proof.
  induction l as [|x rest IH]; intros Hin Hd; [contradiction|].
  destruct rest as [|y rest].
  - destruct Hin as [<- | []]. exact Hd.
  - change (join sep (x :: y :: rest)) with (x ++ sep ++ join sep (y :: rest)).
    rewrite !visible_app. intros E.
    apply append_empty in E as [Ex E]. apply append_empty in E as [_ E].
    destruct Hin as [<- | Hin]; [contradiction|]. now apply IH.
Qed.

Lemma combine_all_ws (descriptions : list string) :
  (forall d, In d descriptions -> all_ws d = true) ->
  strip (combine descriptions) = "".
Proof.
  intros Hall. apply strip_empty_iff, visible_join_empty; [reflexivity|].
  intros d Hd. apply filter_In in Hd as [Hd _]. now apply all_ws_true, Hall.
Qed.

Lemma combine_visible (descriptions : list string) (d : string) :
  In d descriptions -> all_ws d = false ->
  is_empty (strip (combine descriptions)) = false.
Proof.
  intros Hin Hd. apply is_empty_false. rewrite strip_empty_iff.
  apply all_ws_false in Hd.
  apply visible_join_inhabited with (d := d); [|exact Hd].
  apply filter_In. split; [exact Hin|].
  destruct d; [contradiction Hd; reflexivity | reflexivity].
Qed.

Lemma endswith_app (s p : string) : endswith (s ++ p) p = true.
Proof.
  induction s as [|c s IH]; simpl.
  - destruct p; simpl; [reflexivity|].
    now rewrite Ascii.eqb_refl, String.eqb_refl.
  - rewrite IH. apply orb_true_r.
Qed.

Lemma with_period_ends (summary : string) :
  endswith (with_period summary) "." = true.
Proof.
  unfold with_period. destruct (endswith summary ".") eqn:E; simpl.
  - exact E.
  - apply endswith_app.
Qed.

(** Whatever precedes it, a string that ends with the fallback note does
    not end in a period. *)
Lemma endswith_note_not_period (s : string) :
  endswith (s ++ fallback_note) "." = false.
Proof.
  assert (Hne : forall x, String.eqb (x ++ fallback_note) "" = false)
    by (intros [|c x]; reflexivity).
  induction s as [|c s IH]; [reflexivity|].
  change (endswith (String c s ++ fallback_note) ".")
    with (String.eqb (String c (s ++ fallback_note)) "."
          || endswith (s ++ fallback_note) ".").
  rewrite IH, orb_false_r.
  change (String.eqb (String c (s ++ fallback_note)) ".")
    with (Ascii.eqb c "." && String.eqb (s ++ fallback_note) "").
  rewrite Hne. apply andb_false_r.
Qed.

Lemma simple_summarization_ok (text : string) :
  _simple_summarization text
  = Ok (with_period (summary_body text) ++ fallback_note).
Proof. reflexivity. Qed.

Lemma accumulate_budget_prefix (sentences : list string) (used : nat)
    (summary_sentences : list string) :
  accumulate sentences used summary_sentences
  = (summary_sentences ++ map strip (budget_prefix sentences used))%list.
Proof.
  revert used summary_sentences.
  induction sentences as [|u rest IH]; intros used acc; simpl.
  - now rewrite app_nil_r.
  - destruct (used + String.length u <? max_length)%nat.
    + rewrite IH, <- app_assoc. reflexivity.
    + now rewrite app_nil_r.
Qed.

Lemma budget_prefix_maximal (units : list string) (used : nat) :
  used < max_length ->
  exists n,
    n <= List.length units
    /\ budget_prefix units used = firstn n units
    /\ used + total_length (firstn n units) < max_length
    /\ (forall k, k <= List.length units ->
          used + total_length (firstn k units) < max_length -> k <= n).
Proof.
  revert used. induction units as [|u rest IH]; intros used Hused.
  - exists 0. simpl. repeat split; auto; lia.
  - simpl budget_prefix.
    destruct (used + String.length u <? max_length)%nat eqn:E.
    + apply Nat.ltb_lt in E.
      destruct (IH _ E) as (n & Hn & Hp & Hfit & Hmax).
      exists (S n). simpl List.length. split; [lia|].
      split; [simpl; now rewrite Hp|].
      split; [simpl; lia|].
      intros [|k] Hk Hfitk; [lia|].
      simpl in Hfitk. assert (k <= n); [|lia].
      apply Hmax; lia.
    + apply Nat.ltb_ge in E.
      exists 0. simpl List.length. split; [lia|].
      split; [reflexivity|]. split; [simpl; lia|].
      intros [|k] Hk Hfitk; [lia|]. simpl in Hfitk. lia.
Qed.

Variable chat_completions_create : ChatRequest -> result (list (option string)).

Local Notation summarize_descriptions :=
  (SummarizationService.summarize_descriptions chat_completions_create).
Local Notation _summarize_with_groq :=
  (SummarizationService._summarize_with_groq chat_completions_create).

(** C4, as the code has it.  For the empty list [summarize_descriptions]
    returns the sentinel "No descriptions available for summarization.";
    for a non-empty list whose elements are all empty or whitespace it
    returns the different sentinel "No valid descriptions found for
    summarization.".  In both cases no request is sent to the provider. *)
Theorem empty_input_sentinels (descriptions : list string) :
  summarize_descriptions [] = (Ok no_descriptions, [])
  /\ (descriptions <> [] ->
      (forall d, In d descriptions -> all_ws d = true) ->
      summarize_descriptions descriptions = (Ok no_valid_descriptions, []))
  /\ no_descriptions <> no_valid_descriptions.
Proof.
  split; [reflexivity|]. split; [|discriminate].
  intros Hne Hall. destruct descriptions as [|d rest]; [congruence|].
  unfold SummarizationService.summarize_descriptions.
  now rewrite (combine_all_ws (d :: rest) Hall).
Qed.

(** C3, as the code has it.  For a passage list with at least one
    passage that is not all whitespace, when the primary call raises,
    [summarize_descriptions] does not raise: it returns the extractive
    summary, which ends in a period, followed by the fixed fallback note.
    The returned string is therefore not empty and contains the note;
    one request was sent to the provider. *)
Theorem fallback_summary_on_provider_failure (descriptions : list string)
    (e : exn) :
  (exists d, In d descriptions /\ all_ws d = false) ->
  fst (_summarize_with_groq (combine descriptions)) = Raise e ->
  exists body,
    summarize_descriptions descriptions
    = (Ok (body ++ fallback_note), [request_of (combine descriptions)])
    /\ body = with_period (summary_body (combine descriptions))
    /\ endswith body "." = true
    /\ body ++ fallback_note <> "".
Proof.
  intros (d & Hin & Hd) Hfail.
  exists (with_period (summary_body (combine descriptions))).
  split; [|split; [reflexivity | split; [apply with_period_ends|]]].
  - unfold SummarizationService.summarize_descriptions.
    destruct descriptions as [|d0 rest]; [contradiction|].
    rewrite (combine_visible (d0 :: rest) d Hin Hd).
    unfold SummarizationService._summarize_with_groq in *.
    simpl in Hfail. rewrite Hfail. reflexivity.
  - intros E. apply append_empty in E as [_ E]. discriminate.
Qed.

(** *** Further properties of the synthesis service *)

Lemma summarize_descriptions_ok (descriptions : list string) :
  exists summary, fst (summarize_descriptions descriptions) = Ok summary.
Proof.
  unfold SummarizationService.summarize_descriptions.
  destruct descriptions as [|d rest]; [eexists; reflexivity|].
  destruct (is_empty (strip (combine (d :: rest))));
    [eexists; reflexivity|].
  unfold SummarizationService._summarize_with_groq.
  destruct (bind _ _) as [summary|e]; cbn [fst]; eexists; reflexivity.
Qed.

(** X12.  [summarize_descriptions] never raises, whatever the provider
    does, and it sends at most one request: none when the passages hold
    no visible text, one (for the combined text) otherwise. *)
Theorem summarize_never_raises (descriptions : list string) :
  (exists summary, fst (summarize_descriptions descriptions) = Ok summary)
  /\ snd (summarize_descriptions descriptions)
     = if is_empty (strip (combine descriptions)) then []
       else [request_of (combine descriptions)].
Proof.
  unfold SummarizationService.summarize_descriptions.
  destruct descriptions as [|d rest]; [split; [eexists|]; reflexivity|].
  destruct (is_empty (strip (combine (d :: rest))));
    [split; [eexists|]; reflexivity|].
  unfold SummarizationService._summarize_with_groq.
  destruct (bind _ _) as [summary|e]; cbn [fst snd].
  - split; [eexists|]; reflexivity.
  - split; [|reflexivity]. rewrite simple_summarization_ok. eexists.
    reflexivity.
Qed.

(** X13.  For passages with visible text, the summary is the stripped
    content of the first choice of the provider's response when there is
    one (an all-blank content gives the empty summary); when the call
    raises, the response has no choice, or the first choice has no
    content, it is the fallback summary. *)
Theorem summary_is_primary_or_fallback (descriptions : list string) :
  is_empty (strip (combine descriptions)) = false ->
  fst (summarize_descriptions descriptions)
  = match chat_completions_create (request_of (combine descriptions)) with
    | Ok (Some content :: _) => Ok (strip content)
    | _ => _simple_summarization (combine descriptions)
    end.
Proof.
  intros Hvisible.
  unfold SummarizationService.summarize_descriptions.
  destruct descriptions as [|d rest]; [discriminate|].
  rewrite Hvisible. unfold SummarizationService._summarize_with_groq.
  destruct (chat_completions_create (request_of (combine (d :: rest))))
    as [[|[content|] others]|e]; reflexivity.
Qed.

End SummarizationFacts.

Section FallbackFacts.

Import PyStr SummarizationService.

Lemma prompt_of_length (text : string) :
  String.length (prompt_of text)
  = String.length (prompt_of "") + String.length text.
Proof.
  unfold prompt_of. rewrite !string_length_app. simpl String.length. lia.
Qed.

(** X14.  The text placed in the prompt is the combined text itself when
    it has at most 8000 characters, and its first 8000 characters
    followed by "..." otherwise; the prompt never exceeds the fixed
    template by more than 8003 characters. *)
Theorem prompt_text_is_bounded (text : string) :
  exists sent,
    user_content (request_of text) = prompt_of sent
    /\ (String.length text <= 8000 -> sent = text)
    /\ (8000 < String.length text -> sent = take 8000 text ++ "...")
    /\ String.length (user_content (request_of text))
       <= String.length (prompt_of "") + (8000 + 3).
Proof.
  unfold request_of. cbv zeta. cbn [user_content].
  destruct (8000 <? String.length text)%nat eqn:E.
  - apply Nat.ltb_lt in E. exists (take 8000 text ++ "...").
    split; [reflexivity|]. split; [lia|]. split; [reflexivity|].
    rewrite prompt_of_length, string_length_app, take_length.
    rewrite Nat.min_l by lia. apply Nat.eq_le_incl. reflexivity.
  - apply Nat.ltb_ge in E. exists text.
    split; [reflexivity|]. split; [reflexivity|]. split; [lia|].
    rewrite prompt_of_length. lia.
Qed.

Lemma join_length (sep : string) (l : list string) :
  String.length (join sep l)
  = total_length l + String.length sep * (List.length l - 1).
Proof.
  induction l as [|x rest IH]; [simpl; lia|].
  destruct rest as [|y rest]; [simpl; lia|].
  change (join sep (x :: y :: rest)) with (x ++ sep ++ join sep (y :: rest)).
  rewrite !string_length_app, IH.
  change (total_length (x :: y :: rest))
    with (String.length x + total_length (y :: rest)).
  simpl List.length. nia.
Qed.

Lemma split_total_length (sep text : string) :
  sep <> "" -> total_length (split sep text) <= String.length text.
Proof.
  intros Hsep. rewrite <- (join_split sep text Hsep) at 2.
  rewrite join_length. apply Nat.le_add_r.
Qed.

Lemma budget_prefix_all (units : list string) (used : nat) :
  used + total_length units < max_length ->
  budget_prefix units used = units.
Proof.
  revert used. induction units as [|u rest IH]; intros used H;
    [reflexivity|].
  change (total_length (u :: rest))
    with (String.length u + total_length rest) in H.
  simpl budget_prefix.
  assert (Hfit : (used + String.length u <? max_length)%nat = true)
    by (apply Nat.ltb_lt; lia).
  rewrite Hfit. f_equal. apply IH. lia.
Qed.

(** X15.  A text of fewer than 500 characters loses no sentence in the
    fallback summary: the body is all its units, stripped, joined with
    the delimiter. *)
Theorem fallback_keeps_short_text (text : string) :
  String.length text < max_length ->
  summary_body text = join ". " (map strip (split ". " text))
  /\ _simple_summarization text
     = Ok (with_period (join ". " (map strip (split ". " text)))
           ++ fallback_note).
Proof.
  intros Hshort.
  assert (Hbody : summary_body text
                  = join ". " (map strip (split ". " text))).
  { unfold summary_body. rewrite accumulate_budget_prefix.
    rewrite budget_prefix_all; [reflexivity|].
    pose proof (split_total_length ". " text ltac:(discriminate)). lia. }
  split; [exact Hbody|]. now rewrite simple_summarization_ok, Hbody.
Qed.

(** X16.  When the first unit of the text alone reaches the 500-character
    budget, no sentence is kept: the fallback summary is a single period
    followed by the note. *)
Theorem fallback_of_long_first_sentence (text u : string)
    (us : list string) :
  split ". " text = u :: us ->
  max_length <= String.length u ->
  _simple_summarization text = Ok ("." ++ fallback_note).
Proof.
  intros Hsplit Hlong. rewrite simple_summarization_ok.
  unfold summary_body. rewrite Hsplit. simpl accumulate.
  assert (Hfit : (String.length u <? max_length)%nat = false)
    by (apply Nat.ltb_ge; exact Hlong).
  rewrite Hfit. reflexivity.
Qed.

End FallbackFacts.

(** C9, as the code has it.  The fallback summariser splits the text on
    the delimiter and keeps the maximal prefix of the units whose
    cumulative length stays under 500 characters; the summary body is
    these units, each stripped of leading and trailing whitespace, in
    their order and joined with the delimiter.  The returned string is
    the body, with a period added when it does not end in one, followed
    by the fallback note. *)
Theorem fallback_summary_is_stripped_budget_prefix (text : string) :
  let units := PyStr.split ". " text in
  exists n,
    n <= List.length units
    /\ SummarizationService.total_length (firstn n units)
       < SummarizationService.max_length
    /\ (forall k, k <= List.length units ->
          SummarizationService.total_length (firstn k units)
          < SummarizationService.max_length -> k <= n)
    /\ SummarizationService.summary_body text
       = PyStr.join ". " (map PyStr.strip (firstn n units))
    /\ SummarizationService._simple_summarization text
       = Ok (SummarizationService.with_period
               (SummarizationService.summary_body text)
             ++ SummarizationService.fallback_note).
Proof.
  intros units.
  destruct (budget_prefix_maximal units 0) as (n & Hn & Hp & Hfit & Hmax).
  { unfold SummarizationService.max_length. lia. }
  exists n. repeat split; auto.
  unfold SummarizationService.summary_body. fold units.
  now rewrite accumulate_budget_prefix, Hp.
Qed.

(** The sentinel theorem at the list of an empty and a blank passage. *)
Lemma empty_input_sentinels_witness :
  SummarizationService.summarize_descriptions Examples.provider_up [""; "  "]
  = (Ok SummarizationService.no_valid_descriptions, []).
Proof.
  apply (proj1 (proj2 (empty_input_sentinels Examples.provider_up
                         [""; "  "]))).
  - discriminate.
  - intros d [<- | [<- | []]]; reflexivity.
Defined.

(** The empty list and a list of blank passages do not get the same
    message. *)
Lemma sentinel_messages_differ :
  fst (SummarizationService.summarize_descriptions Examples.provider_up [])
  <> fst (SummarizationService.summarize_descriptions Examples.provider_up
            [""; "  "]).
Proof. vm_compute. discriminate. Qed.

(** The fallback theorem at one passage, with the provider down. *)
Lemma fallback_summary_on_provider_failure_witness :
  exists body,
    SummarizationService.summarize_descriptions Examples.provider_down
      ["A device for cooling chips. It uses a fan"]
    = (Ok (body ++ SummarizationService.fallback_note),
       [SummarizationService.request_of
          (SummarizationService.combine
             ["A device for cooling chips. It uses a fan"])])
    /\ body = SummarizationService.with_period
                (SummarizationService.summary_body
                   (SummarizationService.combine
                      ["A device for cooling chips. It uses a fan"]))
    /\ PyStr.endswith body "." = true
    /\ body ++ SummarizationService.fallback_note <> "".
Proof.
  apply (fallback_summary_on_provider_failure Examples.provider_down
           ["A device for cooling chips. It uses a fan"]
           (PyExc "APIConnectionError" "Connection error.")).
  - exists "A device for cooling chips. It uses a fan".
    split; [now left | reflexivity].
  - reflexivity.
Defined.

(** With the provider down, the string returned for one passage ends with
    the closing bracket of the note, not with a period. *)
Lemma fallback_summary_ends_with_note :
  fst (SummarizationService.summarize_descriptions Examples.provider_down
         ["A device for cooling chips"])
  = Ok ("A device for cooling chips."
        ++ SummarizationService.fallback_note)
  /\ PyStr.endswith
       ("A device for cooling chips." ++ SummarizationService.fallback_note)
       "." = false
  /\ PyStr.endswith
       ("A device for cooling chips." ++ SummarizationService.fallback_note)
       "]" = true.
Proof. vm_compute. repeat split. Qed.

(** Two passages, the first ending in the delimiter: the second unit
    starts with the blank line that separated the passages, and the
    summary body does not contain it. *)
Lemma fallback_summary_strips_units :
  PyStr.split ". " Examples.two_passages
  = ["A fan cools the chip";
     SummarizationService.nl ++ SummarizationService.nl
     ++ "A pump moves water"]
  /\ SummarizationService.budget_prefix
       (PyStr.split ". " Examples.two_passages) 0
     = PyStr.split ". " Examples.two_passages
  /\ SummarizationService.summary_body Examples.two_passages
     = "A fan cools the chip. A pump moves water"
  /\ SummarizationService.summary_body Examples.two_passages
     <> PyStr.join ". "
          (SummarizationService.budget_prefix
             (PyStr.split ". " Examples.two_passages) 0).
Proof. vm_compute. repeat split. discriminate. Qed.

(** ** The retrieval service *)

Section SearchFacts.

Import Chroma SearchService.

Variable float : Type.
Variable encode : string -> list float.
Variable on_existing : OnExisting.
Variable cosine_distance : list float -> list float -> float.
Variable fleb : float -> float -> bool.
Variable fone : float.
Variable fsub : float -> float -> float.
Variable round : float -> Z -> float.

Local Notation search :=
  (SearchService.search encode cosine_distance fleb fone fsub round).
Local Notation format_result :=
  (SearchService.format_result float fone fsub round).
Local Notation format_results :=
  (SearchService.format_results fone fsub round).
Local Notation hit := (SearchService.hit fone fsub round).
Local Notation query := (Chroma.query cosine_distance fleb).

Lemma try_except_reraise {A : Type} (body : result A) :
  try_except body (fun e => Raise e) = body.
Proof. destruct body; reflexivity. Qed.

Lemma py_index_app {A : Type} (pre : list A) (x : A) (post : list A) :
  py_index (pre ++ x :: post) (List.length pre) = Ok x.
Proof.
  unfold py_index. rewrite nth_error_app2 by lia.
  now rewrite Nat.sub_diag.
Qed.

(** The indexed loop over two parallel lists visits the pairs in order. *)
Lemma format_loop (results : QueryResult float)
    (rest_m : list (list Metadata)) (rest_d : list (list float))
    (ms : list Metadata) (ds : list float) :
  List.length ms = List.length ds ->
  forall (pre_m : list Metadata) (pre_d : list float),
    List.length pre_m = List.length pre_d ->
    metadatas results = (pre_m ++ ms)%list :: rest_m ->
    distances results = (pre_d ++ ds)%list :: rest_d ->
    for_each (format_result results)
      (seq (List.length pre_m) (List.length ms))
    = Ok (map (fun md => hit (fst md) (snd md)) (List.combine ms ds)).
Proof.
  revert ds. induction ms as [|m ms IH]; intros [|d ds] Hlen;
    try discriminate; intros pre_m pre_d Hpre Hm Hd; [reflexivity|].
  simpl seq. simpl for_each.
  assert (Hi : format_result results (List.length pre_m) = Ok (hit m d)).
  { unfold SearchService.format_result. rewrite Hm, Hd. simpl.
    rewrite py_index_app, Hpre, py_index_app. reflexivity. }
  rewrite Hi. simpl.
  specialize (IH ds ltac:(simpl in Hlen; lia)
                 (pre_m ++ [m])%list (pre_d ++ [d])%list).
  rewrite !length_app in IH. simpl in IH.
  rewrite Nat.add_1_r in IH. rewrite IH; [reflexivity | lia | |].
  - now rewrite <- app_assoc.
  - now rewrite <- app_assoc.
Qed.

Lemma format_results_parallel (results : QueryResult float)
    (rest_m : list (list Metadata)) (rest_d : list (list float))
    (ms : list Metadata) (ds : list float) :
  metadatas results = ms :: rest_m ->
  distances results = ds :: rest_d ->
  List.length ms = List.length ds ->
  format_results results
  = Ok (map (fun md => hit (fst md) (snd md)) (List.combine ms ds)).
Proof.
  intros Hm Hd Hlen. unfold SearchService.format_results. rewrite Hm.
  destruct ms as [|m ms]; [reflexivity|].
  change (0 <? List.length (m :: ms))%nat with true. cbv iota.
  apply (format_loop results rest_m rest_d (m :: ms) ds Hlen [] []);
    auto.
Qed.

Lemma combine_maps {A B C : Type} (f : A -> B) (g : A -> C) (l : list A) :
  List.combine (map f l) (map g l) = map (fun x => (f x, g x)) l.
Proof. induction l as [|x l IH]; simpl; [reflexivity | now rewrite IH]. Qed.

(** On a service whose collection exists, [search] with a positive
    [top_k] does not raise: it returns one result for each of the
    [top_k] nearest records, nearest first. *)
Lemma search_ready (self : SearchService.t float) (c : Collection float)
    (text : string) (top_k : Z) :
  collection self = Some c -> (0 < top_k)%Z ->
  search self text top_k
  = Ok (map (fun h => hit (entry_metadata (fst h)) (snd h))
          (firstn (Z.to_nat top_k)
             (ranked float cosine_distance fleb c (encode text)))).
Proof.
  intros Hc Hk. unfold SearchService.search.
  rewrite try_except_reraise, Hc. unfold Chroma.query.
  destruct (top_k <=? 0)%Z eqn:E; [apply Z.leb_le in E; lia|].
  cbn [bind].
  erewrite format_results_parallel; [| reflexivity | reflexivity |].
  - now rewrite combine_maps, map_map.
  - now rewrite !length_map.
Qed.

(** C2.  For a positive [top_k]: on a collection that exists and holds no
    entries, [search] returns the empty list and does not raise; on a
    service whose collection was never created, [search] raises the
    exception "No collection found. Please index documents first.", an
    outcome different from the empty list. *)
Theorem search_empty_versus_not_ready (self : SearchService.t float)
    (text : string) (top_k : Z) :
  (0 < top_k)%Z ->
  (forall c, collection self = Some c -> count c = 0 ->
             search self text top_k = Ok [])
  /\ (collection self = None ->
      search self text top_k
      = Raise (PyExc "Exception"
                 "No collection found. Please index documents first."))
  /\ (forall e : exn, @Raise (list (SearchResult float)) e <> Ok []).
Proof.
  intros Hk. unfold SearchService.search. rewrite try_except_reraise.
  split; [|split].
  - intros c -> Hc. destruct c; [|discriminate].
    unfold Chroma.query.
    destruct (top_k <=? 0)%Z eqn:E; [apply Z.leb_le in E; lia|].
    simpl. rewrite firstn_nil. reflexivity.
  - intros ->. reflexivity.
  - discriminate.
Qed.

(** C5.  When the collection's query yields the metadata [ms] and the
    distances [ds] of n hits in the index's order, [search] returns
    exactly n results in that order, the i-th built from the i-th
    metadata with the score [round(1 - d_i, 4)]. *)
Theorem search_scores_in_index_order (self : SearchService.t float)
    (c : Collection float) (text : string) (top_k : Z)
    (results : QueryResult float)
    (rest_m : list (list Metadata)) (rest_d : list (list float))
    (ms : list Metadata) (ds : list float) :
  collection self = Some c ->
  query c (encode text) top_k = Ok results ->
  metadatas results = ms :: rest_m ->
  distances results = ds :: rest_d ->
  List.length ms = List.length ds ->
  exists found,
    search self text top_k = Ok found
    /\ List.length found = List.length ds
    /\ map score found = map (fun d => round (fsub fone d) 4) ds
    /\ map res_patent_number found = map md_patent_number ms
    /\ found = map (fun md => hit (fst md) (snd md)) (List.combine ms ds).
Proof.
  intros Hc Hq Hm Hd Hlen.
  exists (map (fun md => hit (fst md) (snd md)) (List.combine ms ds)).
  split.
  { unfold SearchService.search. rewrite try_except_reraise, Hc, Hq.
    simpl. now apply format_results_parallel with rest_m rest_d. }
  clear Hq Hm Hd. split; [|split; [|split; [|reflexivity]]].
  - rewrite length_map, length_combine. lia.
  - rewrite map_map. simpl. revert ds Hlen.
    induction ms as [|m ms IH]; intros [|d ds] Hlen; try discriminate;
      [reflexivity|].
    simpl. f_equal. apply IH. simpl in Hlen. lia.
  - rewrite map_map. simpl. revert ds Hlen.
    induction ms as [|m ms IH]; intros [|d ds] Hlen; try discriminate;
      [reflexivity|].
    simpl. f_equal. apply IH. simpl in Hlen. lia.
Qed.

(** *** Indexing *)

Local Notation fresh c :=
  (fun e : Entry float => negb (has_id c (entry_id e))).

Lemma records_ids (ids : list string) (embeddings : list (list float))
    (metadatas : list Metadata) (documents : list string)
    (batch : list (Entry float)) :
  records float ids embeddings metadatas documents = Some batch ->
  ids = map entry_id batch.
Proof.
  revert embeddings metadatas documents batch.
  induction ids as [|i ids IH];
    intros [|v vs] [|m ms] [|d ds] batch H; simpl in H; try discriminate.
  - now injection H as <-.
  - destruct (records float ids vs ms ds) as [rest|] eqn:E; [|discriminate].
    injection H as <-. simpl. f_equal. now apply IH with vs ms ds.
Qed.

Lemma records_of_entries (es : list (Entry float)) :
  records float (map entry_id es) (map entry_embedding es)
    (map entry_metadata es) (map entry_document es) = Some es.
Proof.
  induction es as [|[i v m d] es IH]; simpl; [reflexivity|].
  now rewrite IH.
Qed.

Lemma filter_fresh_all (c : Collection float) (batch : list (Entry float)) :
  existsb (has_id c) (map entry_id batch) = false ->
  filter (fresh c) batch = batch.
Proof.
  induction batch as [|e batch IH]; simpl; [reflexivity|].
  intros H. apply orb_false_iff in H as [-> H]. simpl. now rewrite IH.
Qed.

(** A successful [add] appends the records of the batch whose id is not
    stored yet, whichever way the store treats the others. *)
Lemma add_ok (c c' : Collection float) (ids : list string)
    (embeddings : list (list float)) (metadatas : list Metadata)
    (documents : list string) :
  add on_existing c ids embeddings metadatas documents = Ok c' ->
  exists batch,
    records float ids embeddings metadatas documents = Some batch
    /\ unique_ids (map entry_id batch) = true
    /\ c' = (c ++ filter (fresh c) batch)%list.
Proof.
  unfold add.
  destruct (records float ids embeddings metadatas documents)
    as [batch|] eqn:E; [|discriminate].
  rewrite (records_ids _ _ _ _ _ E).
  destruct (unique_ids (map entry_id batch)) eqn:Hu; simpl; [|discriminate].
  intros H. exists batch. split; [reflexivity | split; [exact Hu|]].
  destruct on_existing.
  - now injection H as <-.
  - destruct (existsb (has_id c) (map entry_id batch)) eqn:Hx;
      [discriminate|].
    injection H as <-. now rewrite filter_fresh_all.
Qed.

Lemma get_app (c d : Collection float) (id : string) :
  get (c ++ d)%list id = (get c id ++ get d id)%list.
Proof. apply filter_app. Qed.

Lemma get_absent (c : Collection float) (id : string) :
  has_id c id = false -> get c id = [].
Proof.
  unfold has_id, stored_ids, get.
  induction c as [|e c IH]; simpl; [reflexivity|].
  intros H. apply orb_false_iff in H as [-> H]. now apply IH.
Qed.

Lemma has_id_in (c : Collection float) (e : Entry float) :
  In e c -> has_id c (entry_id e) = true.
Proof.
  intros H. unfold has_id, stored_ids. apply existsb_exists.
  exists (entry_id e). split; [now apply in_map | apply String.eqb_refl].
Qed.

Lemma get_fresh_of_stored (c : Collection float)
    (batch : list (Entry float)) (id : string) :
  has_id c id = true -> get (filter (fresh c) batch) id = [].
Proof.
  intros Hid. unfold get.
  induction batch as [|e batch IH]; simpl; [reflexivity|].
  destruct (has_id c (entry_id e)) eqn:He; simpl; [exact IH|].
  destruct (String.eqb id (entry_id e)) eqn:Heq; [|exact IH].
  apply String.eqb_eq in Heq. congruence.
Qed.

Lemma get_fresh_of_absent (c : Collection float)
    (batch : list (Entry float)) (id : string) :
  has_id c id = false -> get (filter (fresh c) batch) id = get batch id.
Proof.
  intros Hid. unfold get.
  induction batch as [|e batch IH]; simpl; [reflexivity|].
  destruct (String.eqb id (entry_id e)) eqn:Heq.
  - apply String.eqb_eq in Heq. rewrite <- Heq, Hid. simpl.
    rewrite Heq at 1. rewrite String.eqb_refl. now rewrite IH.
  - destruct (has_id c (entry_id e)); simpl; [exact IH|].
    now rewrite Heq, IH.
Qed.

Lemma get_unique (batch : list (Entry float)) (e : Entry float) :
  unique_ids (map entry_id batch) = true ->
  In e batch -> get batch (entry_id e) = [e].
Proof.
  induction batch as [|b batch IH]; intros Hu Hin; [contradiction|].
  simpl in Hu. apply andb_true_iff in Hu as [Hb Hu].
  apply negb_true_iff in Hb.
  change (get (b :: batch) (entry_id e))
    with (if String.eqb (entry_id e) (entry_id b)
          then b :: get batch (entry_id e) else get batch (entry_id e)).
  destruct Hin as [-> | Hin].
  - rewrite String.eqb_refl. f_equal. now apply get_absent.
  - destruct (String.eqb (entry_id e) (entry_id b)) eqn:Heq;
      [|now apply IH].
    apply String.eqb_eq in Heq. apply has_id_in in Hin.
    unfold has_id, stored_ids in Hin. congruence.
Qed.

Lemma prepare_entries (documents : list (DataProcessor.ProcessedDoc float))
    (acc prepared : Prepared float) :
  prepare float documents acc = Ok prepared ->
  exists es,
    Forall2 indexes documents es
    /\ p_ids float prepared = (p_ids float acc ++ map entry_id es)%list
    /\ p_embeddings float prepared
       = (p_embeddings float acc ++ map entry_embedding es)%list
    /\ p_metadatas float prepared
       = (p_metadatas float acc ++ map entry_metadata es)%list
    /\ p_documents_text float prepared
       = (p_documents_text float acc ++ map entry_document es)%list.
Proof.
  revert acc. induction documents as [|doc rest IH]; intros acc H.
  - injection H as <-. exists []. rewrite !app_nil_r. auto.
  - simpl in H. destruct (DataProcessor.embedding doc) as [v|] eqn:Ev;
      [|discriminate].
    apply IH in H as (es & HF & H1 & H2 & H3 & H4). simpl in *.
    exists ({| entry_id := DataProcessor.patent_number doc;
               entry_embedding := v;
               entry_metadata := metadata_of doc;
               entry_document := DataProcessor.searchable_text doc |} :: es).
    rewrite <- app_assoc in H1, H2, H3, H4.
    split; [|auto].
    constructor; [|exact HF]. unfold indexes. simpl. auto.
Qed.

(** What a successful [index_documents] stored. *)
Lemma index_documents_ok (self self' : SearchService.t float)
    (documents : list (DataProcessor.ProcessedDoc float)) :
  index_documents on_existing self documents = (self', Ok tt) ->
  exists batch,
    Forall2 indexes documents batch
    /\ unique_ids (map entry_id batch) = true
    /\ store self' = (store self ++ filter (fresh (store self)) batch)%list.
Proof.
  unfold index_documents.
  destruct (prepare float documents _) as [prepared|e] eqn:Hp;
    simpl; [|discriminate].
  apply prepare_entries in Hp as (es & HF & H1 & H2 & H3 & H4).
  simpl in H1, H2, H3, H4. rewrite H1, H2, H3, H4.
  destruct (add on_existing (store self) _ _ _ _) as [c'|e] eqn:Ha;
    [|discriminate].
  intros H; injection H as <-.
  apply add_ok in Ha as (batch & Hr & Hu & ->).
  rewrite records_of_entries in Hr. injection Hr as <-.
  exists es. auto.
Qed.

Lemma Forall2_pick_r {A B : Type} (R : A -> B -> Prop) (l : list A)
    (l' : list B) (b : B) :
  Forall2 R l l' -> In b l' -> exists a, In a l /\ R a b.
Proof.
  induction 1 as [|x y l l' Hxy _ IH]; intros Hin; [contradiction|].
  destruct Hin as [<- | Hin].
  - exists x. split; [now left | exact Hxy].
  - destruct (IH Hin) as (a & Ha & Hab). exists a. split; [now right | auto].
Qed.

(** Whatever its outcome, [index_documents] only appends records whose
    id is not stored yet; they have distinct ids and each is the record
    of one of the documents. *)
Lemma index_documents_appends (self : SearchService.t float)
    (documents : list (DataProcessor.ProcessedDoc float)) :
  exists extra,
    unique_ids (map entry_id extra) = true
    /\ (forall e, In e extra -> exists doc, In doc documents /\ indexes doc e)
    /\ store (fst (index_documents on_existing self documents))
       = (store self ++ filter (fresh (store self)) extra)%list.
Proof.
  destruct (index_documents on_existing self documents) as [self' r] eqn:E.
  cbn [fst]. destruct r as [[]|e].
  - apply index_documents_ok in E as (batch & HF & Hu & ->).
    exists batch. split; [exact Hu | split; [|reflexivity]].
    intros e He. now apply Forall2_pick_r with batch.
  - exists []. unfold index_documents in E.
    destruct (bind _ _) in E; [discriminate|].
    injection E as <- _. simpl. rewrite app_nil_r.
    split; [reflexivity | split; [contradiction | reflexivity]].
Qed.

Lemma unique_ids_NoDup (l : list string) : unique_ids l = true <-> NoDup l.
Proof.
  induction l as [|i l IH]; simpl.
  - split; [constructor | reflexivity].
  - rewrite andb_true_iff, negb_true_iff, IH, NoDup_cons_iff.
    assert (Hin : existsb (String.eqb i) l = false <-> ~ In i l).
    { rewrite <- not_true_iff_false, existsb_exists. split.
      - intros H Hi. apply H. exists i. split; [exact Hi|].
        apply String.eqb_refl.
      - intros H (x & Hx & Heq). apply String.eqb_eq in Heq as <-. auto. }
    now rewrite Hin.
Qed.

Lemma NoDup_filter_ids (P : Entry float -> bool) (l : list (Entry float)) :
  NoDup (map entry_id l) -> NoDup (map entry_id (filter P l)).
Proof.
  induction l as [|e l IH]; simpl; [auto|].
  intros H. apply NoDup_cons_iff in H as [Hnot H].
  destruct (P e); simpl; [|auto].
  constructor; [|auto].
  intros Hin. apply Hnot. apply in_map_iff in Hin as (x & Hx & Hin).
  apply filter_In in Hin as [Hin _]. rewrite <- Hx. now apply in_map.
Qed.

(** X8.  The store never holds two entries under one id:
    [index_documents] keeps the ids of the collection distinct, whatever
    documents it is given and whatever its outcome. *)
Lemma index_documents_unique_ids (self : SearchService.t float)
    (documents : list (DataProcessor.ProcessedDoc float)) :
  NoDup (stored_ids (store self)) ->
  NoDup (stored_ids
           (store (fst (index_documents on_existing self documents)))).
Proof.
  intros Hc.
  destruct (index_documents_appends self documents) as (extra & Hu & _ & ->).
  unfold stored_ids. rewrite map_app. apply NoDup_app.
  - exact Hc.
  - apply NoDup_filter_ids, unique_ids_NoDup, Hu.
  - intros id Hid Hextra.
    apply in_map_iff in Hextra as (e & <- & He).
    apply filter_In in He as [_ He]. apply negb_true_iff in He.
    apply in_map_iff in Hid as (e' & Heq & He').
    apply has_id_in in He'. congruence.
Qed.

Lemma Forall2_pick {A B : Type} (R : A -> B -> Prop) (l : list A)
    (l' : list B) (a : A) :
  Forall2 R l l' -> In a l -> exists b, In b l' /\ R a b.
Proof.
  induction 1 as [|x y l l' Hxy _ IH]; intros Hin; [contradiction|].
  destruct Hin as [<- | Hin].
  - exists y. split; [now left | exact Hxy].
  - destruct (IH Hin) as (b & Hb & Hab). exists b. split; [now right | auto].
Qed.

(** C1, as the code has it.  Once [index_documents] has indexed a record
    under an id that was not stored, the store holds exactly one entry
    for that id, the one built from that record; a later
    [index_documents] call, whatever documents it is given and whether
    it succeeds or raises, leaves exactly that entry under the id: no
    duplicate is created and the first metadata is kept. *)
Theorem reindexing_keeps_first_entry (self self1 : SearchService.t float)
    (documents1 documents2 : list (DataProcessor.ProcessedDoc float))
    (doc : DataProcessor.ProcessedDoc float) :
  In doc documents1 ->
  has_id (store self) (DataProcessor.patent_number doc) = false ->
  index_documents on_existing self documents1 = (self1, Ok tt) ->
  exists e,
    indexes doc e
    /\ get (store self1) (DataProcessor.patent_number doc) = [e]
    /\ get (store (fst (index_documents on_existing self1 documents2)))
         (DataProcessor.patent_number doc) = [e].
Proof.
  intros Hin Hnew H1.
  apply index_documents_ok in H1 as (batch & HF & Hu & Hs1).
  destruct (Forall2_pick _ _ _ _ HF Hin) as (e & He & Hdoc).
  assert (Hid : entry_id e = DataProcessor.patent_number doc)
    by apply Hdoc.
  rewrite <- Hid in *.
  assert (Hget1 : get (store self1) (entry_id e) = [e]).
  { rewrite Hs1, get_app, get_absent, get_fresh_of_absent by assumption.
    now apply get_unique. }
  exists e. split; [exact Hdoc | split; [exact Hget1|]].
  destruct (index_documents_appends self1 documents2) as (extra & _ & _ & ->).
  rewrite get_app, Hget1, get_fresh_of_stored; [reflexivity|].
  destruct (has_id (store self1) (entry_id e)) eqn:Hh; [reflexivity|].
  apply get_absent in Hh. congruence.
Qed.

(** *** Further properties of the retrieval service *)

Local Notation ranked := (Chroma.ranked float cosine_distance fleb).

Lemma prepare_missing_embedding
    (documents : list (DataProcessor.ProcessedDoc float)) :
  (exists doc, In doc documents /\ DataProcessor.embedding doc = None) ->
  forall acc,
    prepare float documents acc = Raise (PyExc "KeyError" "'embedding'").
Proof.
  induction documents as [|d rest IH]; intros (doc & Hin & Hnone) acc;
    [contradiction|].
  simpl. destruct (DataProcessor.embedding d) as [v|] eqn:Ev; [|reflexivity].
  apply IH. exists doc. split; [|exact Hnone].
  destruct Hin as [<- | Hin]; [congruence | exact Hin].
Qed.

(** X7.  When a document has no embedding, [index_documents] raises
    [KeyError] before anything is sent to the store; on a service without
    collection the collection has been created all the same.  From then
    on the service is still not indexed, but [search] returns the empty
    list where it raised "No collection found" before. *)
Theorem failed_indexing_leaves_empty_collection
    (self : SearchService.t float)
    (documents : list (DataProcessor.ProcessedDoc float))
    (text : string) (top_k : Z) :
  (exists doc, In doc documents /\ DataProcessor.embedding doc = None) ->
  collection self = None ->
  (0 < top_k)%Z ->
  index_documents on_existing self documents
  = ({| collection := Some [] |}, Raise (PyExc "KeyError" "'embedding'"))
  /\ search self text top_k
     = Raise (PyExc "Exception"
                "No collection found. Please index documents first.")
  /\ search (fst (index_documents on_existing self documents)) text top_k
     = Ok []
  /\ is_indexed (fst (index_documents on_existing self documents)) = false.
Proof.
  intros Hmissing Hnew Hk.
  assert (Hindex : index_documents on_existing self documents
                   = ({| collection := Some [] |},
                      Raise (PyExc "KeyError" "'embedding'"))).
  { unfold index_documents, store.
    rewrite (prepare_missing_embedding documents Hmissing), Hnew.
    reflexivity. }
  rewrite Hindex. cbn [fst]. split; [reflexivity|]. split; [|split].
  - unfold SearchService.search. now rewrite Hnew.
  - rewrite (search_ready {| collection := Some [] |} [] text top_k
               eq_refl Hk).
    simpl. now rewrite firstn_nil.
  - reflexivity.
Qed.

Lemma index_documents_binds (self : SearchService.t float)
    (documents : list (DataProcessor.ProcessedDoc float)) :
  collection (fst (index_documents on_existing self documents))
  = Some (store (fst (index_documents on_existing self documents))).
Proof.
  unfold index_documents. destruct (bind _ _); reflexivity.
Qed.

Lemma filter_all {A : Type} (P : A -> bool) (l : list A) :
  (forall x, In x l -> P x = true) -> filter P l = l.
Proof.
  intros H. apply forallb_filter_id, forallb_forall, H.
Qed.

Lemma Forall2_same_length {A B : Type} (R : A -> B -> Prop) (l : list A)
    (l' : list B) :
  Forall2 R l l' -> List.length l = List.length l'.
Proof. induction 1; simpl; auto. Qed.


Lemma insert_ranked_length (x : Entry float * float)
    (l : list (Entry float * float)) :
  List.length (insert_ranked float fleb x l) = S (List.length l).
Proof.
  induction l as [|y l IH]; simpl; [reflexivity|].
  destruct (fleb (snd x) (snd y)); simpl; [reflexivity | now rewrite IH].
Qed.

Lemma insert_ranked_in (x y : Entry float * float)
    (l : list (Entry float * float)) :
  In y (insert_ranked float fleb x l) <-> y = x \/ In y l.
Proof.
  induction l as [|z l IH]; simpl.
  - intuition.
  - destruct (fleb (snd x) (snd z)); simpl; [intuition|].
    rewrite IH. intuition.
Qed.

Lemma ranked_length (c : Collection float) (q : list float) :
  List.length (ranked c q) = List.length c.
Proof.
  induction c as [|e c IH]; simpl; [reflexivity|].
  now rewrite insert_ranked_length, IH.
Qed.

Lemma ranked_in (c : Collection float) (q : list float)
    (h : Entry float * float) :
  In h (ranked c q)
  <-> exists e, In e c /\ h = (e, cosine_distance q (entry_embedding e)).
Proof.
  induction c as [|e c IH]; simpl.
  - split; [contradiction | intros (e & [] & _)].
  - rewrite insert_ranked_in, IH. split.
    + intros [-> | (e' & He' & ->)]; eauto.
    + intros (e' & [<- | He'] & ->); eauto.
Qed.

Lemma in_firstn {A : Type} (n : nat) (l : list A) (x : A) :
  In x (firstn n l) -> In x l.
Proof.
  revert l; induction n as [|n IH]; intros [|y l]; simpl; try tauto.
  intros [-> | H]; auto.
Qed.

(** X10.  On a service whose collection exists, [search] with a positive
    [top_k] returns min(top_k, count) results, and each of them is built
    from the metadata of a stored record, with the score
    [round(1 - d, 4)] for the distance d between the query's embedding
    and the record's. *)
Theorem search_returns_stored_records (self : SearchService.t float)
    (c : Collection float) (text : string) (top_k : Z) :
  collection self = Some c ->
  (0 < top_k)%Z ->
  exists results,
    search self text top_k = Ok results
    /\ List.length results = Nat.min (Z.to_nat top_k) (count c)
    /\ forall r, In r results ->
         exists e,
           In e c
           /\ r = hit (entry_metadata e)
                    (cosine_distance (encode text) (entry_embedding e)).
Proof.
  intros Hc Hk. eexists.
  split; [exact (search_ready self c text top_k Hc Hk)|].
  split.
  - now rewrite length_map, length_firstn, ranked_length.
  - intros r Hr. apply in_map_iff in Hr as (h & <- & Hh).
    apply in_firstn, ranked_in in Hh as (e & He & ->).
    exists e. auto.
Qed.

(** X11.  A document that [index_documents] has stored under a new id is
    found again: a search that asks for at least as many results as the
    store holds returns a result with the document's patent number,
    title, abstract, claims and description, scored by the distance
    between the query's embedding and the document's. *)
Theorem indexed_document_is_found (self self' : SearchService.t float)
    (documents : list (DataProcessor.ProcessedDoc float))
    (doc : DataProcessor.ProcessedDoc float) (text : string) (top_k : Z) :
  index_documents on_existing self documents = (self', Ok tt) ->
  In doc documents ->
  has_id (store self) (DataProcessor.patent_number doc) = false ->
  (0 < top_k)%Z ->
  (Z.of_nat (count (store self')) <= top_k)%Z ->
  exists results r v,
    search self' text top_k = Ok results
    /\ In r results
    /\ DataProcessor.embedding doc = Some v
    /\ r = hit (metadata_of doc) (cosine_distance (encode text) v).
Proof.
  intros Hindex Hdoc Hnew Hk Hall.
  pose proof (index_documents_binds self documents) as Hbound.
  rewrite Hindex in Hbound. cbn [fst] in Hbound.
  apply index_documents_ok in Hindex as (batch & HF & _ & Hs).
  destruct (Forall2_pick _ _ _ _ HF Hdoc) as (e & He & Hid & Hv & Hm & _).
  assert (Hstored : In e (store self')).
  { rewrite Hs. apply in_or_app. right. apply filter_In.
    split; [exact He|]. now rewrite Hid, Hnew. }
  eexists. exists (hit (entry_metadata e)
                     (cosine_distance (encode text) (entry_embedding e))).
  exists (entry_embedding e).
  split; [exact (search_ready self' (store self') text top_k Hbound Hk)|].
  split; [|split; [exact Hv | now rewrite Hm]].
  apply in_map_iff.
  exists (e, cosine_distance (encode text) (entry_embedding e)).
  split; [reflexivity|].
  rewrite firstn_all2 by (rewrite ranked_length; unfold count in Hall; lia).
  apply ranked_in. eauto.
Qed.

End SearchFacts.

(** The indexing theorem at a new service: [doc1] and [doc2] are indexed,
    then a revised record with the id of [doc1]. *)
Lemma reindexing_keeps_first_entry_witness :
  exists e,
    SearchService.indexes Examples.doc1 e
    /\ Chroma.get (SearchService.store Examples.service_ready) "P1" = [e]
    /\ Chroma.get
         (SearchService.store
            (fst (SearchService.index_documents Chroma.IgnoreExisting
                    Examples.service_ready [Examples.doc1_revised])))
         "P1" = [e].
Proof.
  apply (reindexing_keeps_first_entry Z Chroma.IgnoreExisting
           Examples.service_new Examples.service_ready
           [Examples.doc1; Examples.doc2] [Examples.doc1_revised]
           Examples.doc1).
  - now left.
  - reflexivity.
  - reflexivity.
Defined.

(** Indexing a record and then a revised record under the same id keeps
    the metadata of the first, whether the store skips or rejects the
    known id; and one call with both records raises and stores
    nothing. *)
Lemma reindexing_does_not_overwrite :
  map Chroma.entry_metadata
    (Chroma.get
       (SearchService.store (Examples.indexed_twice Chroma.IgnoreExisting))
       "P1")
  = [SearchService.metadata_of Examples.doc1]
  /\ map Chroma.entry_metadata
       (Chroma.get
          (SearchService.store (Examples.indexed_twice Chroma.RejectExisting))
          "P1")
     = [SearchService.metadata_of Examples.doc1]
  /\ SearchService.metadata_of Examples.doc1_revised
     <> SearchService.metadata_of Examples.doc1
  /\ SearchService.index_documents Chroma.IgnoreExisting
       Examples.service_new [Examples.doc1; Examples.doc1_revised]
     = ({| SearchService.collection := Some [] |},
        Raise (PyExc "DuplicateIDError"
                 "Expected IDs to be unique, found duplicates")).
Proof. vm_compute. repeat split. discriminate. Qed.

(** The search theorem at [top_k = 3], on an empty collection and on a
    service without collection. *)
Lemma search_empty_versus_not_ready_witness :
  SearchService.search Examples.encode Examples.distance Examples.leb
    Examples.one Examples.sub Examples.round Examples.service_empty
    "cooling semiconductor device" 3 = Ok []
  /\ SearchService.search Examples.encode Examples.distance Examples.leb
       Examples.one Examples.sub Examples.round Examples.service_new
       "cooling semiconductor device" 3
     = Raise (PyExc "Exception"
                "No collection found. Please index documents first.").
Proof.
  split.
  - apply (proj1 (search_empty_versus_not_ready Z Examples.encode
                    Examples.distance Examples.leb Examples.one Examples.sub
                    Examples.round Examples.service_empty
                    "cooling semiconductor device" 3 eq_refl) []);
      reflexivity.
  - apply (proj1 (proj2 (search_empty_versus_not_ready Z Examples.encode
                           Examples.distance Examples.leb Examples.one
                           Examples.sub Examples.round Examples.service_new
                           "cooling semiconductor device" 3 eq_refl))).
    reflexivity.
Defined.

(** The score theorem at a store of two records: the nearer record comes
    first, with the higher score. *)
Lemma search_scores_in_index_order_witness :
  exists found,
    SearchService.search Examples.encode Examples.distance Examples.leb
      Examples.one Examples.sub Examples.round Examples.service_ready
      "cooling semiconductor device" 3 = Ok found
    /\ List.length found = 2
    /\ map SearchService.score found = [9987%Z; 9977%Z]
    /\ map SearchService.res_patent_number found = ["P1"; "P2"].
Proof.
  destruct (search_scores_in_index_order Z Examples.encode
              Examples.distance Examples.leb Examples.one Examples.sub
              Examples.round Examples.service_ready
              (SearchService.store Examples.service_ready)
              "cooling semiconductor device" 3 _ [] [] _ _
              eq_refl eq_refl eq_refl eq_refl eq_refl)
    as (found & Hfound & Hlen & Hscore & Hids & _).
  exists found. repeat split; assumption.
Defined.

(** ** The request surface *)

Section AppFacts.

Import Chroma SearchService SummarizationService.

Variable float : Type.
Variable soup_get_text : string -> result string.
Variable encode : string -> list float.
Variable data_path : string.
Variable on_existing : OnExisting.
Variable cosine_distance : list float -> list float -> float.
Variable fleb : float -> float -> bool.
Variable fone : float.
Variable fsub : float -> float -> float.
Variable round : float -> Z -> float.
Variable chat_completions_create : ChatRequest -> result (list (option string)).

Local Notation core_search :=
  (SearchService.search encode cosine_distance fleb fone fsub round).
Local Notation app_search :=
  (App.search float encode cosine_distance fleb fone fsub round
     chat_completions_create).
Local Notation startup_event :=
  (App.startup_event float soup_get_text encode data_path on_existing).

(** At startup a store that holds documents is left as it is: the corpus
    is indexed once. *)
Lemma startup_keeps_indexed_store (search_service : SearchService.t float)
    (data_dir : option (list (string * result DataProcessor.PatentJson))) :
  is_indexed search_service = true ->
  startup_event search_service data_dir = (search_service, Ok tt).
Proof. unfold App.startup_event. now intros ->. Qed.

Lemma not_indexed_store (search_service : SearchService.t float) :
  is_indexed search_service = false -> store search_service = [].
Proof.
  unfold is_indexed, store.
  destruct (collection search_service) as [[|e c]|]; simpl;
    [reflexivity | discriminate | reflexivity].
Qed.

(** After a startup that indexed the corpus, every stored record has a
    non-empty text: a record without searchable text is never indexed. *)
Lemma startup_indexes_documents_with_text
    (search_service search_service' : SearchService.t float)
    (data_dir : option (list (string * result DataProcessor.PatentJson)))
    (e : Entry float) :
  is_indexed search_service = false ->
  startup_event search_service data_dir = (search_service', Ok tt) ->
  In e (store search_service') ->
  entry_document e <> "".
Proof.
  intros Hnew Hstart He. unfold App.startup_event in Hstart.
  rewrite Hnew in Hstart. cbn [negb] in Hstart.
  destruct (DataProcessor.load_and_process_documents _ _ _ _ _)
    as [documents|err] eqn:Hload; [|now injection Hstart].
  apply load_and_process_documents_ok in Hload as (listing & _ & ->).
  apply index_documents_ok in Hstart as (batch & HF & _ & Hs).
  rewrite Hs, (not_indexed_store _ Hnew) in He. simpl in He.
  apply filter_In in He as [He _].
  destruct (Forall2_pick_r _ _ _ _ HF He) as (doc & Hdoc & _ & _ & _ & ->).
  now apply contribution_text in Hdoc.
Qed.

(** C8, evaluated on the code.  When the core search returns no result
    for a query that is not blank, the handler raises the status 404
    inside its [try] block, and its own [except Exception] clause turns
    it into the status 500 whose detail quotes the 404.  Every exception
    the handler raises has status 500, so a search without results is
    reported like any other internal failure. *)
Theorem search_not_found_becomes_internal_error
    (search_service : SearchService.t float) (start_time end_time : float)
    (text : string) :
  (PyStr.is_empty (PyStr.strip text) = false ->
   core_search search_service text 3 = Ok [] ->
   app_search search_service start_time end_time text
   = Raise (HTTPException 500
              ("Internal server error: "
               ++ exn_str (HTTPException 404 "No relevant documents found"))))
  /\ (forall e,
         app_search search_service start_time end_time text = Raise e ->
         exists detail, e = HTTPException 500 detail).
Proof.
  unfold App.search, App.search_body. split.
  - intros -> ->. reflexivity.
  - intros e. destruct (if PyStr.is_empty _ then _ else _); simpl.
    + discriminate.
    + intros H; injection H as <-. eauto.
Qed.

(** *** Further properties of the request surface *)

Local Notation summarize_descriptions :=
  (SummarizationService.summarize_descriptions chat_completions_create).

(** The entry of [top_documents] built from one search result. *)
Local Notation document_info :=
  (fun result : SearchResult float =>
     {| App.di_patent_number := res_patent_number result;
        App.di_title := res_title result;
        App.relevance_score := score result |}).

(** X17.  When the query is not blank and the core search returns at
    least one result, the handler returns a response: the query, one
    entry per result in the same order with its patent number, title and
    score, the summary of the results' descriptions, and the elapsed time
    rounded to three digits. *)
Theorem search_response_lists_results
    (search_service : SearchService.t float) (start_time end_time : float)
    (text : string) (r : SearchResult float) (rs : list (SearchResult float)) :
  PyStr.is_empty (PyStr.strip text) = false ->
  core_search search_service text 3 = Ok (r :: rs) ->
  exists summary,
    fst (summarize_descriptions (map res_description (r :: rs))) = Ok summary
    /\ app_search search_service start_time end_time text
       = Ok {| App.query := text;
               App.top_documents := map document_info (r :: rs);
               App.summary := summary;
               App.processing_time := round (fsub end_time start_time) 3 |}.
Proof.
  intros Hquery Hsearch.
  destruct (summarize_descriptions_ok chat_completions_create
              (map res_description (r :: rs))) as (summary & Hsummary).
  exists summary. split; [exact Hsummary|].
  unfold App.search, App.search_body.
  rewrite Hquery, Hsearch. cbn [bind]. rewrite Hsummary. reflexivity.
Qed.

(** X18.  The handler returns a response exactly when the query is not
    blank and the core search returns at least one result; a blank
    query, a failing search and a search without results all end in an
    exception (of status 500). *)
Theorem search_responds_iff_results
    (search_service : SearchService.t float) (start_time end_time : float)
    (text : string) :
  (exists response,
      app_search search_service start_time end_time text = Ok response)
  <-> PyStr.is_empty (PyStr.strip text) = false
      /\ exists r rs, core_search search_service text 3 = Ok (r :: rs).
Proof.
  split.
  - intros (response & H). unfold App.search, App.search_body in H.
    destruct (PyStr.is_empty (PyStr.strip text)); [discriminate|].
    split; [reflexivity|].
    destruct (core_search search_service text 3) as [[|r rs]|e];
      try discriminate.
    eauto.
  - intros (Hquery & r & rs & Hsearch).
    destruct (summarize_descriptions_ok chat_completions_create
                (map res_description (r :: rs))) as (summary & Hsummary).
    unfold App.search, App.search_body.
    rewrite Hquery, Hsearch. cbn [bind]. rewrite Hsummary.
    eexists. reflexivity.
Qed.

(** X19.  After a startup that indexed the corpus into a store that was
    not indexed, every stored record has a non-empty text, and its
    vector is the encoding of that text. *)
Theorem startup_stores_encoded_texts
    (search_service search_service' : SearchService.t float)
    (data_dir : option (list (string * result DataProcessor.PatentJson)))
    (e : Entry float) :
  is_indexed search_service = false ->
  startup_event search_service data_dir = (search_service', Ok tt) ->
  In e (store search_service') ->
  entry_document e <> ""
  /\ entry_embedding e = encode (entry_document e).
Proof.
  intros Hnew Hstart He. unfold App.startup_event in Hstart.
  rewrite Hnew in Hstart. cbn [negb] in Hstart.
  destruct (DataProcessor.load_and_process_documents _ _ _ _ _)
    as [documents|err] eqn:Hload; [|now injection Hstart].
  apply load_and_process_documents_ok in Hload as (listing & _ & ->).
  apply index_documents_ok in Hstart as (batch & HF & _ & Hs).
  rewrite Hs, (not_indexed_store _ Hnew) in He. simpl in He.
  apply filter_In in He as [He _].
  destruct (Forall2_pick_r _ _ _ _ HF He) as (doc & Hdoc & _ & Hv & _ & Ht).
  rewrite Ht. split; [now apply contribution_text in Hdoc|].
  apply (contribution_embedding float soup_get_text encode) in Hdoc.
  congruence.
Qed.

(** X20.  The corpus is indexed once: after a startup that indexed at
    least one document into a store that was not indexed, the store
    holds one record per loaded document, the service is indexed, and a
    later startup leaves it as it is, whatever the data directory then
    holds. *)
Theorem startup_indexes_once
    (search_service search_service' : SearchService.t float)
    (data_dir : option (list (string * result DataProcessor.PatentJson)))
    (documents : list (DataProcessor.ProcessedDoc float)) :
  is_indexed search_service = false ->
  DataProcessor.load_and_process_documents float soup_get_text encode
    data_path data_dir = Ok documents ->
  documents <> [] ->
  startup_event search_service data_dir = (search_service', Ok tt) ->
  count (store search_service') = List.length documents
  /\ is_indexed search_service' = true
  /\ forall data_dir',
       startup_event search_service' data_dir' = (search_service', Ok tt).
Proof.
  intros Hnew Hload Hdocs Hstart. unfold App.startup_event in Hstart.
  rewrite Hnew, Hload in Hstart. cbn [negb] in Hstart.
  pose proof (index_documents_binds float on_existing search_service
                documents) as Hbound.
  rewrite Hstart in Hbound. cbn [fst] in Hbound.
  apply index_documents_ok in Hstart as (batch & HF & _ & Hs).
  rewrite (not_indexed_store _ Hnew) in Hs. simpl in Hs.
  rewrite filter_all in Hs by reflexivity.
  assert (Hcount : count (store search_service') = List.length documents).
  { rewrite Hs. unfold count. symmetry.
    now apply Forall2_same_length with (R := indexes). }
  assert (Hindexed : is_indexed search_service' = true).
  { unfold is_indexed. rewrite Hbound, Hcount. apply Nat.ltb_lt.
    destruct documents; [congruence | simpl; lia]. }
  split; [exact Hcount | split; [exact Hindexed|]].
  intros data_dir'. now apply startup_keeps_indexed_store.
Qed.

(** X22.  When every result has an empty or blank description, the
    handler still returns a response: its summary is the sentinel "No
    valid descriptions found for summarization." and the provider is not
    asked. *)
Theorem search_without_descriptions_gets_sentinel
    (search_service : SearchService.t float) (start_time end_time : float)
    (text : string) (r : SearchResult float) (rs : list (SearchResult float)) :
  PyStr.is_empty (PyStr.strip text) = false ->
  core_search search_service text 3 = Ok (r :: rs) ->
  (forall x, In x (r :: rs) -> PyStr.all_ws (res_description x) = true) ->
  summarize_descriptions (map res_description (r :: rs))
  = (Ok no_valid_descriptions, [])
  /\ app_search search_service start_time end_time text
     = Ok {| App.query := text;
             App.top_documents := map document_info (r :: rs);
             App.summary := no_valid_descriptions;
             App.processing_time := round (fsub end_time start_time) 3 |}.
Proof.
  intros Hquery Hsearch Hblank.
  assert (Hsummary : summarize_descriptions (map res_description (r :: rs))
                     = (Ok no_valid_descriptions, [])).
  { unfold SummarizationService.summarize_descriptions.
    rewrite combine_all_ws; [reflexivity|].
    intros d Hd. apply in_map_iff in Hd as (x & <- & Hx). now apply Hblank. }
  split; [exact Hsummary|].
  unfold App.search, App.search_body.
  rewrite Hquery, Hsearch. cbn [bind]. rewrite Hsummary. reflexivity.
Qed.

End AppFacts.

(** The handler on a query against an empty collection. *)
Lemma search_not_found_becomes_internal_error_witness :
  App.search Z Examples.encode Examples.distance Examples.leb Examples.one
    Examples.sub Examples.round Examples.provider_up Examples.service_empty
    0%Z 25%Z "cooling semiconductor device"
  = Raise (HTTPException 500
             "Internal server error: 404: No relevant documents found").
Proof.
  apply (proj1 (search_not_found_becomes_internal_error Z Examples.encode
                  Examples.distance Examples.leb Examples.one Examples.sub
                  Examples.round Examples.provider_up Examples.service_empty
                  0%Z 25%Z "cooling semiconductor device"));
    reflexivity.
Defined.

(** ** Instances of the further properties *)

(** The bound at the record with a description of 2001 characters. *)
Lemma description_length_bounded_witness :
  exists doc,
    DataProcessor.extract_patent_data Z Examples.get_text
      Examples.patent_long = Some doc
    /\ String.length (DataProcessor.description doc) <= 2003.
Proof.
  eexists. split; [reflexivity|].
  apply (description_length_bounded Z Examples.get_text
           Examples.patent_long _ eq_refl).
Defined.

(** The trimming theorem at a record without claims. *)
Lemma extracted_texts_are_trimmed_witness :
  exists doc,
    DataProcessor.extract_patent_data Z Examples.get_text
      (DataProcessor.with_claims Examples.patent_short None) = Some doc
    /\ DataProcessor.searchable_text doc = DataProcessor.abstract doc
    /\ PyStr.ends_ws (DataProcessor.searchable_text doc) = false.
Proof.
  eexists. split; [reflexivity|].
  pose proof (extracted_texts_are_trimmed Z Examples.get_text
                (DataProcessor.with_claims Examples.patent_short None)
                _ eq_refl) as (_ & (_ & He) & Hc).
  split; [apply Hc; reflexivity | exact He].
Defined.

(** The theorem at a record with six claims, the sixth of which the
    parser rejects: the record is extracted all the same. *)
Lemma only_first_five_claims_are_read_witness :
  DataProcessor.extract_patent_data Z Examples.get_text_strict
    Examples.patent_six_claims
  = DataProcessor.extract_patent_data Z Examples.get_text_strict
      (DataProcessor.with_claims Examples.patent_six_claims
         (Some [ {| DataProcessor.group_claims :=
                      Some [Examples.markup "one"; Examples.markup "two";
                            Examples.markup "three"; Examples.markup "four";
                            Examples.markup "five"] |} ]))
  /\ exists doc,
       DataProcessor.extract_patent_data Z Examples.get_text_strict
         Examples.patent_six_claims = Some doc
       /\ DataProcessor.claims doc = "one two three four five".
Proof.
  split.
  - apply (only_first_five_claims_are_read Z Examples.get_text_strict
             Examples.patent_six_claims _ [] eq_refl).
  - eexists. split; reflexivity.
Defined.


(** A file that cannot be parsed between two parts of a listing. *)
Lemma files_are_processed_independently_witness :
  DataProcessor.load_and_process_documents Z Examples.get_text
    Examples.encode "./patent_jsons/"
    (Some ([("p1.json", Ok Examples.patent_long)]
           ++ ("broken.json",
               Raise (PyExc "JSONDecodeError" "Expecting value"))
              :: [("p2.json", Ok Examples.patent_short)])%list)
  = DataProcessor.load_and_process_documents Z Examples.get_text
      Examples.encode "./patent_jsons/"
      (Some ([("p1.json", Ok Examples.patent_long)]
             ++ [("p2.json", Ok Examples.patent_short)])%list).
Proof.
  apply (proj2 (files_are_processed_independently Z Examples.get_text
                  Examples.encode "./patent_jsons/"
                  [("p1.json", Ok Examples.patent_long)]
                  [("p2.json", Ok Examples.patent_short)])).
  right. left. eexists. reflexivity.
Defined.

(** The documents of the example directory carry their embeddings. *)
Lemma loaded_documents_carry_their_embedding_witness :
  exists documents,
    DataProcessor.load_and_process_documents Z Examples.get_text
      Examples.encode "./patent_jsons/" Examples.data_dir = Ok documents
    /\ forall doc, In doc documents ->
         DataProcessor.embedding doc
         = Some (Examples.encode (DataProcessor.searchable_text doc)).
Proof.
  eexists. split; [reflexivity|]. intros doc Hdoc.
  apply (loaded_documents_carry_their_embedding Z Examples.get_text
           Examples.encode "./patent_jsons/" Examples.data_dir _ doc eq_refl
           Hdoc).
Defined.

(** Indexing a record without embedding on a new service. *)
Lemma failed_indexing_leaves_empty_collection_witness :
  SearchService.index_documents Chroma.IgnoreExisting Examples.service_new
    [Examples.doc1_unembedded]
  = ({| SearchService.collection := Some [] |},
     Raise (PyExc "KeyError" "'embedding'"))
  /\ SearchService.search Examples.encode Examples.distance Examples.leb
       Examples.one Examples.sub Examples.round
       (fst (SearchService.index_documents Chroma.IgnoreExisting
               Examples.service_new [Examples.doc1_unembedded]))
       "cooling semiconductor device" 3 = Ok [].
Proof.
  pose proof (failed_indexing_leaves_empty_collection Z Examples.encode
                Chroma.IgnoreExisting Examples.distance Examples.leb
                Examples.one Examples.sub Examples.round
                Examples.service_new [Examples.doc1_unembedded]
                "cooling semiconductor device" 3) as H.
  destruct H as (Hindex & _ & Hsearch & _).
  - exists Examples.doc1_unembedded. split; [now left | reflexivity].
  - reflexivity.
  - reflexivity.
  - split; [exact Hindex | exact Hsearch].
Defined.

(** The ids stay distinct when a stored id is indexed again. *)
Lemma index_documents_unique_ids_witness :
  NoDup
    (Chroma.stored_ids
       (SearchService.store
          (fst (SearchService.index_documents Chroma.IgnoreExisting
                  Examples.service_ready
                  [Examples.doc1_revised; Examples.doc2])))).
Proof.
  apply (index_documents_unique_ids Z Chroma.IgnoreExisting
           Examples.service_ready [Examples.doc1_revised; Examples.doc2]).
  apply unique_ids_NoDup. reflexivity.
Defined.


(** One result is returned when one is asked of a store of two. *)
Lemma search_returns_stored_records_witness :
  exists results,
    SearchService.search Examples.encode Examples.distance Examples.leb
      Examples.one Examples.sub Examples.round Examples.service_ready
      "cooling semiconductor device" 1 = Ok results
    /\ List.length results = 1.
Proof.
  destruct (search_returns_stored_records Z Examples.encode
              Examples.distance Examples.leb Examples.one Examples.sub
              Examples.round Examples.service_ready
              (SearchService.store Examples.service_ready)
              "cooling semiconductor device" 1 eq_refl eq_refl)
    as (results & Hsearch & Hlen & _).
  exists results. split; [exact Hsearch | exact Hlen].
Defined.

(** [doc1], indexed with [doc2] on a new service, is found again. *)
Lemma indexed_document_is_found_witness :
  exists results r,
    SearchService.search Examples.encode Examples.distance Examples.leb
      Examples.one Examples.sub Examples.round Examples.service_ready
      "cooling semiconductor device" 3 = Ok results
    /\ In r results
    /\ SearchService.res_patent_number r = "P1"
    /\ SearchService.res_title r = "Chip cooler".
Proof.
  destruct (indexed_document_is_found Z Examples.encode
              Chroma.IgnoreExisting Examples.distance Examples.leb
              Examples.one Examples.sub Examples.round
              Examples.service_new Examples.service_ready
              [Examples.doc1; Examples.doc2] Examples.doc1
              "cooling semiconductor device" 3)
    as (results & r & v & Hsearch & Hin & _ & Hr).
  - reflexivity.
  - now left.
  - reflexivity.
  - reflexivity.
  - vm_compute. discriminate.
  - exists results, r.
    split; [exact Hsearch | split; [exact Hin|]].
    rewrite Hr. split; reflexivity.
Defined.

(** The provider answers: the summary is its stripped content. *)
Lemma summary_is_primary_or_fallback_witness :
  fst (SummarizationService.summarize_descriptions Examples.provider_up
         ["A device for cooling chips"])
  = Ok "A summary of the patents.".
Proof.
  apply (summary_is_primary_or_fallback Examples.provider_up
           ["A device for cooling chips"]).
  reflexivity.
Defined.

(** A short text of two sentences keeps both. *)
Lemma fallback_keeps_short_text_witness :
  SummarizationService.summary_body "A fan cools the chip. It is quiet"
  = "A fan cools the chip. It is quiet".
Proof.
  apply (proj1 (fallback_keeps_short_text
                  "A fan cools the chip. It is quiet"
                  ltac:(apply Nat.ltb_lt; reflexivity))).
Defined.

(** A sentence of 500 characters is summarised as a period. *)
Lemma fallback_of_long_first_sentence_witness :
  SummarizationService._simple_summarization Examples.long_sentence
  = Ok ("." ++ SummarizationService.fallback_note).
Proof.
  apply (fallback_of_long_first_sentence Examples.long_sentence
           Examples.long_sentence []).
  - vm_compute. reflexivity.
  - apply Nat.leb_le. vm_compute. reflexivity.
Defined.

(** The handler on a query against a store of one described record. *)
Lemma search_response_lists_results_witness :
  exists response,
    App.search Z Examples.encode Examples.distance Examples.leb Examples.one
      Examples.sub Examples.round Examples.provider_up
      Examples.service_described 0%Z 25%Z "cooling semiconductor device"
    = Ok response
    /\ map (App.di_patent_number Z) (App.top_documents Z response) = ["P8"]
    /\ App.summary Z response = "A summary of the patents.".
Proof.
  destruct (search_response_lists_results Z Examples.encode
              Examples.distance Examples.leb Examples.one Examples.sub
              Examples.round Examples.provider_up Examples.service_described
              0%Z 25%Z "cooling semiconductor device" _ _ eq_refl eq_refl)
    as (summary & Hsummary & Hresponse).
  eexists. split; [exact Hresponse|]. split; [reflexivity|].
  cbn [App.summary]. vm_compute in Hsummary. now injection Hsummary as <-.
Defined.

(** The handler responds on the store of two records. *)
Lemma search_responds_iff_results_witness :
  exists response,
    App.search Z Examples.encode Examples.distance Examples.leb Examples.one
      Examples.sub Examples.round Examples.provider_down
      Examples.service_ready 0%Z 25%Z "cooling semiconductor device"
    = Ok response.
Proof.
  apply (proj2 (search_responds_iff_results Z Examples.encode
                  Examples.distance Examples.leb Examples.one Examples.sub
                  Examples.round Examples.provider_down
                  Examples.service_ready 0%Z 25%Z
                  "cooling semiconductor device")).
  split; [reflexivity|]. eexists. eexists. reflexivity.
Defined.

(** Startup on a new service with the example directory. *)
Lemma startup_stores_encoded_texts_witness :
  Forall
    (fun e =>
       Chroma.entry_document e <> ""
       /\ Chroma.entry_embedding e
          = Examples.encode (Chroma.entry_document e))
    (SearchService.store
       (fst (App.startup_event Z Examples.get_text Examples.encode
               "./patent_jsons/" Chroma.IgnoreExisting
               Examples.service_new Examples.data_dir))).
Proof.
  apply Forall_forall. intros e.
  apply (startup_stores_encoded_texts Z Examples.get_text Examples.encode
           "./patent_jsons/" Chroma.IgnoreExisting Examples.service_new
           _ Examples.data_dir e eq_refl).
  vm_compute. reflexivity.
Defined.

(** The example directory yields two documents; startup stores both and
    does not index again. *)
Lemma startup_indexes_once_witness :
  Chroma.count
    (SearchService.store
       (fst (App.startup_event Z Examples.get_text Examples.encode
               "./patent_jsons/" Chroma.IgnoreExisting
               Examples.service_new Examples.data_dir))) = 2
  /\ App.startup_event Z Examples.get_text Examples.encode
       "./patent_jsons/" Chroma.IgnoreExisting
       (fst (App.startup_event Z Examples.get_text Examples.encode
               "./patent_jsons/" Chroma.IgnoreExisting
               Examples.service_new Examples.data_dir))
       None
     = (fst (App.startup_event Z Examples.get_text Examples.encode
               "./patent_jsons/" Chroma.IgnoreExisting
               Examples.service_new Examples.data_dir),
        Ok tt).
Proof.
  destruct (startup_indexes_once Z Examples.get_text Examples.encode
              "./patent_jsons/" Chroma.IgnoreExisting Examples.service_new
              (fst (App.startup_event Z Examples.get_text Examples.encode
                      "./patent_jsons/" Chroma.IgnoreExisting
                      Examples.service_new Examples.data_dir))
              Examples.data_dir
              (DataProcessor.process_files Z Examples.get_text
                 Examples.encode
                 [("p1.json", Ok Examples.patent_long);
                  ("p2.json", Ok Examples.patent_short);
                  ("broken.json",
                   Raise (PyExc "JSONDecodeError" "Expecting value"));
                  ("p3.json", Ok Examples.patent_blank)] []))
    as (Hcount & _ & Hagain).
  - reflexivity.
  - reflexivity.
  - vm_compute. discriminate.
  - vm_compute. reflexivity.
  - split; [rewrite Hcount; vm_compute; reflexivity | apply Hagain].
Defined.

(** Cleaning the cleaned text of a paragraph again. *)
Lemma cleaning_cleaned_text_changes_nothing_witness :
  DataProcessor.clean_html_content Examples.get_text
    (Some "A device for cooling")
  = Ok "A device for cooling".
Proof.
  apply (cleaning_cleaned_text_changes_nothing Examples.get_text
           (Some "<p>  A device   for cooling </p>")
           "A device for cooling");
    reflexivity.
Defined.

(** The handler on the store of two records without description. *)
Lemma search_without_descriptions_gets_sentinel_witness :
  exists response,
    App.search Z Examples.encode Examples.distance Examples.leb Examples.one
      Examples.sub Examples.round Examples.provider_up Examples.service_ready
      0%Z 25%Z "cooling semiconductor device" = Ok response
    /\ App.summary Z response = SummarizationService.no_valid_descriptions.
Proof.
  destruct (search_without_descriptions_gets_sentinel Z Examples.encode
              Examples.distance Examples.leb Examples.one Examples.sub
              Examples.round Examples.provider_up Examples.service_ready
              0%Z 25%Z "cooling semiconductor device" _ _ eq_refl eq_refl)
    as (_ & Hresponse).
  - intros x [<- | [<- | []]]; reflexivity.
  - eexists. split; [exact Hresponse | reflexivity].
Defined.
